(** * Synaptix: the rule-driven planner, the priority scorer, the error
      signature and the action executor, embedded from the Python sources.

    Conventions of the embedding.
    - A Python [str] is a Rocq [string], one [ascii] per character, so the
      text covered is the one whose code points are below 256.
    - A JSON-like Python value is a [pyval]; a [dict] with string keys is an
      association list in insertion order (the order is visible through
      [str] and [json.dumps]).
    - A call that can raise returns a [pyresult]: [Return v] or [Raise e].
    - Dictionaries of the code that are only looked up (rule table, lookup
      tables, memory context, handler table) are finite maps.
    - The limits of the interpreter (recursion depth, the digits of an int
      turned into text) are not part of the embedding.
    - What the handlers of the executor print goes to the standard output,
      which can refuse a line (an encoding without bytes for it). Module
      [Executor] has the handlers on a standard output that takes every
      line; module [ExecutorStdout] has them with their prints. *)

From Stdlib Require Import ZArith String Ascii DecimalString DecimalZ.
From stdpp Require Import base option list gmap strings fin_maps.

Set Warnings "-register-all".

Local Open Scope string_scope.
Local Open Scope Z_scope.

(** ** Python values *)

Module Py.

Inductive pyval :=
| PNone
| PBool (b : bool)
| PInt (z : Z)
| PFloat (r : string)   (* a float, held by its [repr] *)
| PStr (s : string)
| PList (l : list pyval)
| PDict (d : list (string * pyval)).

Abbreviation pydict := (list (string * pyval)).

Record pyexn := { exn_class : string; exn_text : string }.

Inductive pyresult (A : Type) :=
| Return (a : A)
| Raise (e : pyexn).
Arguments Return {A} a.
Arguments Raise {A} e.

(** Sequencing: the first exception raised ends the computation. *)
#[global] Instance pyresult_ret : MRet pyresult := fun A a => Return a.
#[global] Instance pyresult_bind : MBind pyresult := fun A B k m =>
  match m with
  | Return a => k a
  | Raise e => Raise e
  end.

#[global] Instance pyresult_fmap : FMap pyresult := fun A B f m =>
  match m with
  | Return a => Return (f a)
  | Raise e => Raise e
  end.

Definition TypeError (msg : string) : pyexn :=
  {| exn_class := "TypeError"; exn_text := msg |}.
Definition AttributeError (msg : string) : pyexn :=
  {| exn_class := "AttributeError"; exn_text := msg |}.
Definition JSONDecodeError (msg : string) : pyexn :=
  {| exn_class := "JSONDecodeError"; exn_text := msg |}.

(** [type(v).__name__] *)
Definition type_name (v : pyval) : string :=
  match v with
  | PNone => "NoneType"
  | PBool _ => "bool"
  | PInt _ => "int"
  | PFloat _ => "float"
  | PStr _ => "str"
  | PList _ => "list"
  | PDict _ => "dict"
  end.

(** [d.get(k)] and [d.get(k, default)] on a dict with string keys. *)
Fixpoint lookup_key (k : string) (d : pydict) : option pyval :=
  match d with
  | [] => None
  | (k', v) :: d' => if String.eqb k k' then Some v else lookup_key k d'
  end.

Definition get (d : pydict) (k : string) : pyval :=
  default PNone (lookup_key k d).

Definition get_or (d : pydict) (k : string) (dflt : pyval) : pyval :=
  default dflt (lookup_key k d).

(** Truth value of an object, as [if v:], [a or b] take it. *)
Definition truthy (v : pyval) : bool :=
  match v with
  | PNone => false
  | PBool b => b
  | PInt z => negb (z =? 0)
  | PFloat r => negb (String.eqb r "0.0" || String.eqb r "-0.0")
  | PStr s => negb (String.eqb s EmptyString)
  | PList l => match l with [] => false | _ => true end
  | PDict d => match d with [] => false | _ => true end
  end.

(** [a or b] *)
Definition py_or (a b : pyval) : pyval := if truthy a then a else b.

(** Lists and dicts are the unhashable values. *)
Definition hashable (v : pyval) : bool :=
  match v with
  | PList _ | PDict _ => false
  | _ => true
  end.

Definition unhashable (v : pyval) : pyexn :=
  TypeError ("unhashable type: '" +:+ type_name v +:+ "'").

(** *** Strings *)

(** [needle in hay] on strings. *)
Fixpoint contains (needle hay : string) : bool :=
  String.prefix needle hay ||
  match hay with
  | EmptyString => false
  | String _ hay' => contains needle hay'
  end.

(** [c.lower()] for a character below 256: the letters A-Z and the
    Latin-1 capitals 0xC0-0xDE (0xD7, the multiplication sign, apart). *)
Definition lower_ascii (c : ascii) : ascii :=
  let n := N_of_ascii c in
  if ((65 <=? n) && (n <=? 90))%N ||
     ((192 <=? n) && (n <=? 222) && negb (n =? 215))%N
  then ascii_of_N (n + 32) else c.

Fixpoint lower (s : string) : string :=
  match s with
  | EmptyString => EmptyString
  | String c s' => String (lower_ascii c) (lower s')
  end.

(** [s[:n]] *)
Definition take_str (n : nat) (s : string) : string := String.substring 0 n s.

(** [s.split(sep)[0]] for a one-character separator. *)
Fixpoint split_head (sep : ascii) (s : string) : string :=
  match s with
  | EmptyString => EmptyString
  | String c s' =>
      if Ascii.eqb c sep then EmptyString else String c (split_head sep s')
  end.

(** [str(n)] for an int. *)
Definition str_of_Z (z : Z) : string := NilZero.string_of_int (Z.to_int z).

(** [sep.join(parts)] on a list of strings. *)
Fixpoint join (sep : string) (parts : list string) : string :=
  match parts with
  | [] => EmptyString
  | [p] => p
  | p :: ps => p +:+ sep +:+ join sep ps
  end.

Definition hex_digit (n : N) : ascii :=
  if (n <? 10)%N then ascii_of_N (48 + n) else ascii_of_N (87 + n).

(** two lower-case hexadecimal digits of a character *)
Definition hex2 (c : ascii) : string :=
  let n := N_of_ascii c in
  String (hex_digit (n / 16)) (String (hex_digit (n mod 16)) EmptyString).

(** the double quote and the backslash *)
Definition dquote : ascii := "034"%char.
Definition bslash : ascii := "092"%char.

Definition str_has (c : ascii) (s : string) : bool :=
  contains (String c EmptyString) s.

(** *** [repr] and [str] *)

(** Characters [repr] writes as they are: the printable ones. *)
Definition printable (c : ascii) : bool :=
  let n := N_of_ascii c in
  ((32 <=? n) && (n <? 127) || (161 <=? n) && negb (n =? 173))%N.

Definition repr_char (quote : ascii) (c : ascii) : string :=
  if Ascii.eqb c quote || Ascii.eqb c bslash
  then String bslash (String c EmptyString)
  else if Ascii.eqb c "009" then "\t"
  else if Ascii.eqb c "010" then "\n"
  else if Ascii.eqb c "013" then "\r"
  else if printable c then String c EmptyString
  else "\x" +:+ hex2 c.

Fixpoint repr_chars (quote : ascii) (s : string) : string :=
  match s with
  | EmptyString => EmptyString
  | String c s' => repr_char quote c +:+ repr_chars quote s'
  end.

(** [repr(s)]: single quotes, unless the text has one and no double quote. *)
Definition repr_str (s : string) : string :=
  let quote : ascii :=
    if str_has "'" s && negb (str_has dquote s) then dquote else "'"%char in
  String quote (repr_chars quote s) +:+ String quote EmptyString.

Fixpoint py_repr (v : pyval) : string :=
  match v with
  | PNone => "None"
  | PBool true => "True"
  | PBool false => "False"
  | PInt z => str_of_Z z
  | PFloat r => r
  | PStr s => repr_str s
  | PList l => "[" +:+ join ", " (map py_repr l) +:+ "]"
  | PDict d =>
      "{" +:+ join ", "
        (map (fun kv => repr_str (fst kv) +:+ ": " +:+ py_repr (snd kv)) d)
      +:+ "}"
  end.

(** [str(v)], which is also what an f-string field [{v}] writes. *)
Definition py_str (v : pyval) : string :=
  match v with
  | PStr s => s
  | _ => py_repr v
  end.

(** *** [json.dumps], with its defaults (ASCII output, [", "] and [": "]) *)

Definition json_char (c : ascii) : string :=
  if Ascii.eqb c dquote then String bslash (String dquote EmptyString)
  else if Ascii.eqb c bslash then String bslash (String bslash EmptyString)
  else if Ascii.eqb c "010" then "\n"
  else if Ascii.eqb c "013" then "\r"
  else if Ascii.eqb c "009" then "\t"
  else if Ascii.eqb c "008" then "\b"
  else if Ascii.eqb c "012" then "\f"
  else
    let n := N_of_ascii c in
    if ((32 <=? n) && (n <? 127))%N then String c EmptyString
    else "\u00" +:+ hex2 c.

Fixpoint json_chars (s : string) : string :=
  match s with
  | EmptyString => EmptyString
  | String c s' => json_char c +:+ json_chars s'
  end.

Definition json_str (s : string) : string :=
  String dquote (json_chars s) +:+ String dquote EmptyString.

Definition json_float (r : string) : string :=
  if String.eqb r "nan" then "NaN"
  else if String.eqb r "inf" then "Infinity"
  else if String.eqb r "-inf" then "-Infinity"
  else r.

Fixpoint json_dumps (v : pyval) : string :=
  match v with
  | PNone => "null"
  | PBool true => "true"
  | PBool false => "false"
  | PInt z => str_of_Z z
  | PFloat r => json_float r
  | PStr s => json_str s
  | PList l => "[" +:+ join ", " (map json_dumps l) +:+ "]"
  | PDict d =>
      "{" +:+ join ", "
        (map (fun kv => json_str (fst kv) +:+ ": " +:+ json_dumps (snd kv)) d)
      +:+ "}"
  end.

(** [table.get(key, default)] on a table with string keys, for a key that
    is any value: an unhashable key raises, a hashable key that is not a
    string is not in the table. *)
Definition table_get {V} (table : gmap string V) (key : pyval) (dflt : V)
  : pyresult V :=
  match key with
  | PStr s => Return (default dflt (table !! s))
  | PList _ | PDict _ => Raise (unhashable key)
  | _ => Return dflt
  end.

(** [l.append(x)], as a new list. *)
Definition list_append {A} (l : list A) (x : A) : list A := (l ++ [x])%list.

(** [x in l] on a list of strings. *)
Definition in_list (x : string) (l : list string) : bool :=
  existsb (String.eqb x) l.

(** *** Operations on a value of any type *)

(** [v.get(k, default)]: only a dict has the method. *)
Definition py_get (v : pyval) (k : string) (dflt : pyval) : pyresult pyval :=
  match v with
  | PDict d => Return (get_or d k dflt)
  | _ =>
      Raise (AttributeError
        ("'" +:+ type_name v +:+ "' object has no attribute 'get'"))
  end.

Definition is_str (s : string) (v : pyval) : bool :=
  match v with
  | PStr s' => String.eqb s s'
  | _ => false
  end.

(** [s in v] for a string [s]: a substring of a string, an element of a
    list, a key of a dict. *)
Definition py_in (s : string) (v : pyval) : pyresult bool :=
  match v with
  | PStr hay => Return (contains s hay)
  | PList l => Return (existsb (is_str s) l)
  | PDict d => Return (existsb (fun kv => String.eqb s (fst kv)) d)
  | _ =>
      Raise (TypeError
        ("argument of type '" +:+ type_name v +:+ "' is not iterable"))
  end.

(** [v.split(sep)[0]] *)
Definition py_split_head (sep : ascii) (v : pyval) : pyresult pyval :=
  match v with
  | PStr s => Return (PStr (split_head sep s))
  | _ =>
      Raise (AttributeError
        ("'" +:+ type_name v +:+ "' object has no attribute 'split'"))
  end.

(** [v[:n]]; a dict cannot be asked for a slice (TypeError, and KeyError
    from Python 3.12 on: an exception either way). *)
Definition py_slice_to (n : nat) (v : pyval) : pyresult pyval :=
  match v with
  | PStr s => Return (PStr (take_str n s))
  | PList l => Return (PList (take n l))
  | PDict _ => Raise (TypeError "unhashable type: 'slice'")
  | _ =>
      Raise (TypeError
        ("'" +:+ type_name v +:+ "' object is not subscriptable"))
  end.

(** The items of [sep.join(...)] must all be strings. *)
Fixpoint join_items (i : Z) (items : list pyval) : pyresult (list string) :=
  match items with
  | [] => Return []
  | PStr s :: items' =>
      rest ← join_items (i + 1) items';
      Return (s :: rest)
  | v :: _ =>
      Raise (TypeError
        ("sequence item " +:+ str_of_Z i +:+ ": expected str instance, "
           +:+ type_name v +:+ " found"))
  end.

Fixpoint chars (s : string) : list string :=
  match s with
  | EmptyString => []
  | String c s' => String c EmptyString :: chars s'
  end.

(** [sep.join(v)]: over the characters of a string, the items of a list,
    the keys of a dict. *)
Definition py_join (sep : string) (v : pyval) : pyresult string :=
  match v with
  | PStr s => Return (join sep (chars s))
  | PList l =>
      parts ← join_items 0 l;
      Return (join sep parts)
  | PDict d => Return (join sep (map fst d))
  | _ => Raise (TypeError "can only join an iterable")
  end.

(** [f"{n:04d}"] *)
Definition zfill (width : nat) (s : string) : string :=
  String.concat EmptyString (replicate (width - String.length s) "0") +:+ s.

Definition format_04d (n : Z) : string :=
  if n <? 0 then "-" +:+ zfill 3 (str_of_Z (- n)) else zfill 4 (str_of_Z n).

(** [json.loads(data)] is not re-implemented. A function that starts by
    parsing its text argument takes the outcome of that call instead of the
    text: [Return v] when the text parses to [v], [Raise e] when
    [json.loads] raises [e]. *)
Abbreviation loaded := (pyresult pyval).

End Py.

Import Py.

(** ** planner.py *)

Module Planner.

Inductive ActionType :=
| CREATE_TASK
| NOTIFY
| ESCALATE
| SCHEDULE
| MONITOR
| BLOCK_DEPLOYMENT
| AGGREGATE
| AUTO_FIX
| REQUEST_REVIEW.

Definition value (t : ActionType) : string :=
  match t with
  | CREATE_TASK => "create_task"
  | NOTIFY => "notify"
  | ESCALATE => "escalate"
  | SCHEDULE => "schedule"
  | MONITOR => "monitor"
  | BLOCK_DEPLOYMENT => "block_deployment"
  | AGGREGATE => "aggregate"
  | AUTO_FIX => "auto_fix"
  | REQUEST_REVIEW => "request_review"
  end.

#[global] Instance ActionType_eq_dec : EqDecision ActionType.
Proof. solve_decision. Defined.

Record Action := {
  type : ActionType;
  priority : string;
  params : pydict;
  reasoning : string
}.

Record Rule := {
  priority_threshold : Z;
  actions : list string;
  escalation_condition : Z -> bool
}.

Definition _initialize_rules : gmap string Rule :=
  list_to_map [
    ("error",
      {| priority_threshold := 7;
         actions := ["create_task"; "notify"];
         escalation_condition := fun count => 3 <=? count |});
    ("security_alert",
      {| priority_threshold := 0;
         actions := ["create_task"; "notify"; "block_deployment"];
         escalation_condition := fun count => true |});
    ("test_failure",
      {| priority_threshold := 6;
         actions := ["create_task"];
         escalation_condition := fun count => 5 <=? count |});
    ("deployment",
      {| priority_threshold := 5;
         actions := ["monitor"; "create_task"];
         escalation_condition := fun count => false |});
    ("code_review",
      {| priority_threshold := 6;
         actions := ["schedule"];
         escalation_condition := fun count => 10 <=? count |})
  ].

(** The two attributes [__init__] sets. *)
Definition action_rules : gmap string Rule := _initialize_rules.

Definition escalation_thresholds : gmap string Z :=
  list_to_map [("error", 3); ("test_failure", 5); ("security_alert", 1)].

Definition _determine_assignee (event_type : string) (event_data : pydict)
  : string :=
  if String.eqb event_type "security_alert" then "security_team"
  else if String.eqb event_type "deployment" then "devops_team"
  else if contains "test" event_type then "qa_team"
  else "oncall_engineer".

Definition _plan_task_creation (event_type : string) (event_data : pydict)
  (priority : Z) : Action :=
  let title_map : gmap string string :=
    list_to_map [
      ("error",
        "Fix: " +:+ py_str (get_or event_data "message" (PStr "Unknown error")));
      ("test_failure",
        "Test failed: " +:+ py_str (get_or event_data "test_name" (PStr "unknown")));
      ("security_alert",
        "Security: " +:+ py_str (get_or event_data "alert_type" (PStr "unknown")));
      ("deployment",
        "Verify deployment: " +:+ py_str (get_or event_data "service" (PStr "unknown")))
    ] in
  let priority_map : gmap Z string :=
    list_to_map [
      (10, "critical"); (9, "critical"); (8, "high"); (7, "high");
      (6, "medium"); (5, "medium")
    ] in
  {| type := CREATE_TASK;
     priority := default "low" (priority_map !! priority);
     params := [
       ("title",
         PStr (default ("Handle " +:+ event_type) (title_map !! event_type)));
       ("description", PStr (json_dumps (PDict event_data)));
       ("labels", PList [PStr event_type; PStr "automated"]);
       ("assignee", PStr (_determine_assignee event_type event_data))
     ];
     reasoning :=
       "Event priority " +:+ str_of_Z priority +:+ " requires task tracking" |}.

(** The characters that open each message are kept as the source file
    spells them, and held here by their bytes in UTF-8: one of them above
    U+00FF takes two places, so the length of a message is not the one
    Python gives. *)
Definition _format_notification_message (event_type : string)
  (event_data : pydict) : string :=
  if String.eqb event_type "security_alert" then
    "ðŸš¨ Security Alert: " +:+ py_str (get event_data "alert_type")
      +:+ " - " +:+ py_str (get event_data "details")
  else if String.eqb event_type "error" then
    "âŒ Error: " +:+ py_str (get event_data "message")
      +:+ " in " +:+ py_str (get event_data "service")
  else
    "âš ï¸ " +:+ event_type +:+ ": "
      +:+ take_str 100 (json_dumps (PDict event_data)).

Definition _plan_notification (event_type : string) (event_data : pydict)
  (priority : Z) : Action :=
  let channel_map : gmap string string :=
    list_to_map [
      ("security_alert", "security");
      ("error", if 9 <=? priority then "urgent" else "alerts");
      ("deployment", "deployments")
    ] in
  {| type := NOTIFY;
     priority := if 8 <=? priority then "high" else "medium";
     params := [
       ("channel", PStr (default "general" (channel_map !! event_type)));
       ("message", PStr (_format_notification_message event_type event_data));
       ("mention", if 9 <=? priority then PStr "oncall" else PNone)
     ];
     reasoning :=
       "High priority event (" +:+ str_of_Z priority
         +:+ ") requires immediate notification" |}.

Definition _plan_escalation (event_type : string) (event_data : pydict)
  (event_count : Z) : Action :=
  {| type := ESCALATE;
     priority := "high";
     params := [
       ("reason",
         PStr ("Repeated " +:+ event_type +:+ " detected ("
                 +:+ str_of_Z event_count +:+ " occurrences)"));
       ("escalate_to", PStr "engineering_manager");
       ("include_data", PBool true)
     ];
     reasoning :=
       "Event count " +:+ str_of_Z event_count +:+ " exceeds threshold" |}.

Definition _plan_scheduling (event_type : string) (event_data : pydict)
  : Action :=
  {| type := SCHEDULE;
     priority := "medium";
     params := [
       ("activity", PStr event_type);
       ("resource_id",
         py_or (get event_data "pr_id") (get event_data "issue_id"));
       ("time_slot", PStr "next_available");
       ("duration", PStr "30m")
     ];
     reasoning := "Scheduling required for code review workflow" |}.

Definition _plan_monitoring (event_type : string) (event_data : pydict)
  : Action :=
  {| type := MONITOR;
     priority := "medium";
     params := [
       ("target", get_or event_data "service" (PStr "unknown"));
       ("metrics",
         PList [PStr "error_rate"; PStr "latency"; PStr "cpu"; PStr "memory"]);
       ("duration", PStr "30m");
       ("alert_threshold", PStr "high")
     ];
     reasoning := "Post-deployment monitoring required" |}.

Definition _plan_deployment_block (event_type : string) (event_data : pydict)
  : Action :=
  {| type := BLOCK_DEPLOYMENT;
     priority := "critical";
     params := [
       ("reason",
         PStr ("Security alert: " +:+ py_str (get event_data "alert_type")));
       ("affected_services", get_or event_data "affected_services" (PList []));
       ("until_resolved", PBool true)
     ];
     reasoning := "Security vulnerability requires deployment freeze" |}.

Definition _plan_aggregation (event_type : string) (event_data : pydict)
  (event_count : Z) : Action :=
  {| type := AGGREGATE;
     priority := "medium";
     params := [
       ("action", PStr "create_epic");
       ("event_type", PStr event_type);
       ("count", PInt event_count);
       ("title", PStr ("Recurring " +:+ event_type +:+ " pattern"))
     ];
     reasoning :=
       "Multiple related events (" +:+ str_of_Z event_count
         +:+ ") suggest larger issue" |}.

Definition _identify_fix_type (event_data : pydict) : string :=
  if contains "dependency" (lower (py_str (PDict event_data))) then
    "dependency_update"
  else if contains "config" (lower (py_str (PDict event_data))) then
    "config_correction"
  else "generic_fix".

Definition _plan_auto_fix (event_type : string) (event_data : pydict)
  : Action :=
  {| type := AUTO_FIX;
     priority := "high";
     params := [
       ("fix_type", PStr (_identify_fix_type event_data));
       ("automatic", PBool true);
       ("create_pr", PBool true)
     ];
     reasoning := "Known issue with automated fix available" |}.

(** [event_data.get('alert_type') or event_data.get('error_type')] *)
Definition issue_type_of (event_data : pydict) : pyval :=
  py_or (get event_data "alert_type") (get event_data "error_type").

(** The lookup in [auto_fixable] raises on an unhashable issue type. *)
Definition _can_auto_fix (event_type : string) (event_data : pydict)
  (event_count : Z) : pyresult bool :=
  let auto_fixable : gmap string bool :=
    list_to_map [
      ("dependency_vulnerability", true);
      ("formatting_error", true);
      ("configuration_drift", true)
    ] in
  let issue_type := issue_type_of event_data in
  known ← table_get auto_fixable issue_type false;
  Return (known && (2 <=? event_count)).

Definition _default_plan (event_type : string) (event_data : pydict)
  : list Action :=
  [ {| type := CREATE_TASK;
       priority := "low";
       params := [
         ("title", PStr ("Review " +:+ event_type));
         ("description", PStr (json_dumps (PDict event_data)));
         ("labels", PList [PStr event_type; PStr "automated"; PStr "review"])
       ];
       reasoning := "Unrecognized event type - creating task for review" |} ].

(** [context] is the memory context: integer statistics by name. *)
Definition plan (event_type : string) (event_data : pydict) (priority : Z)
  (context : gmap string Z) : pyresult (list Action) :=
  match action_rules !! event_type with
  | None => Return (_default_plan event_type event_data)
  | Some rules =>
      if priority <? priority_threshold rules then Return []
      else
        let event_count := default 1 (context !! "event_count") in
        let acts : list Action := [] in
        let acts :=
          if in_list "create_task" (actions rules)
          then list_append acts (_plan_task_creation event_type event_data priority)
          else acts in
        let acts :=
          if in_list "notify" (actions rules) && (8 <=? priority)
          then list_append acts (_plan_notification event_type event_data priority)
          else acts in
        let acts :=
          if in_list "schedule" (actions rules)
          then list_append acts (_plan_scheduling event_type event_data)
          else acts in
        let acts :=
          if in_list "monitor" (actions rules)
          then list_append acts (_plan_monitoring event_type event_data)
          else acts in
        let acts :=
          if in_list "block_deployment" (actions rules)
          then list_append acts (_plan_deployment_block event_type event_data)
          else acts in
        let acts :=
          if escalation_condition rules event_count
          then list_append acts (_plan_escalation event_type event_data event_count)
          else acts in
        let acts :=
          if (3 <=? event_count)
             && in_list event_type ["issue_created"; "test_failure"]
          then list_append acts (_plan_aggregation event_type event_data event_count)
          else acts in
        fixable ← _can_auto_fix event_type event_data event_count;
        let acts :=
          if (fixable : bool)
          then list_append acts (_plan_auto_fix event_type event_data)
          else acts in
        Return acts
  end.

End Planner.

(** ** agent_simple.py *)

Module AgentSimple.

Definition _calculate_priority (event_type : string) (data : loaded) : Z :=
  let data_dict :=
    match data with
    | Return v => v
    | Raise _ => PDict []
    end in
  let priority_map : gmap string Z :=
    list_to_map [
      ("error", 10); ("security_alert", 10); ("test_failure", 8);
      ("deployment", 7); ("code_review", 6); ("commit", 5);
      ("issue_created", 4); ("file_change", 3)
    ] in
  let base_priority := default 5 (priority_map !! event_type) in
  let urgent_keywords := ["critical"; "urgent"; "blocker"; "security"] in
  let base_priority :=
    if existsb (fun keyword => contains keyword (lower (py_str data_dict)))
         urgent_keywords
    then Z.min 10 (base_priority + 3)
    else base_priority in
  base_priority.

End AgentSimple.

(** ** agent.py *)

Module Agent.

(** The same scorer, without the [try] around the parse. *)
Definition _calculate_priority (event_type : string) (data : loaded)
  : pyresult Z :=
  data_dict ← data;
  let priority_map : gmap string Z :=
    list_to_map [
      ("error", 10); ("security_alert", 10); ("test_failure", 8);
      ("deployment", 7); ("code_review", 6); ("commit", 5);
      ("issue_created", 4); ("file_change", 3)
    ] in
  let base_priority := default 5 (priority_map !! event_type) in
  let urgent_keywords := ["critical"; "urgent"; "blocker"; "security"] in
  let base_priority :=
    if existsb (fun keyword => contains keyword (lower (py_str data_dict)))
         urgent_keywords
    then Z.min 10 (base_priority + 3)
    else base_priority in
  Return base_priority.

End Agent.

(** ** memory.py *)

Module Memory.

(** The body of the [try]; any exception it raises is turned into
    ['unknown'] by the bare [except]. *)
Definition signature_attempt (data : loaded) : pyresult string :=
  data_dict ← data;
  message ← py_get data_dict "message" (PStr EmptyString);
  service ← py_get data_dict "service" (PStr "unknown");
  has_colon ← py_in ":" message;
  part ← (if (has_colon : bool)
          then py_split_head ":" message
          else py_slice_to 50 message);
  let signature_parts := PList [service; part] in
  py_join "::" signature_parts.

Definition _extract_error_signature (data : loaded) : string :=
  match signature_attempt data with
  | Return signature => signature
  | Raise _ => "unknown"
  end.

End Memory.

(** ** executor.py *)

Module Executor.

(** What the clock and the random generator answer during one call of
    [execute]: [datetime.now().isoformat()] inside the handler and inside
    [_log_execution], and the draws of [random.randint(1000, 9999)] in the
    order the handler makes them. *)
Record World := {
  handler_clock : string;
  log_clock : string;
  first_draw : Z;
  second_draw : Z
}.

Record LogEntry := {
  timestamp : string;
  action : pydict;
  result : pydict;
  status : string
}.

Record ActionExecutor := {
  execution_log : list LogEntry;
  task_counter : Z;
  notification_counter : Z
}.

Definition __init__ : ActionExecutor :=
  {| execution_log := []; task_counter := 0; notification_counter := 0 |}.

(** A handler runs on the executor and the action; it leaves the executor
    as it changed it, also when it raises. What a handler prints is not
    part of the state; a value it prints is still computed, since computing
    it can raise. The standard output takes every line here; the handlers
    with their prints are in [ExecutorStdout]. *)
Definition handler : Type :=
  World -> ActionExecutor -> pydict -> ActionExecutor * pyresult pydict.

Definition _execute_create_task : handler := fun w self action =>
  let self :=
    {| execution_log := execution_log self;
       task_counter := task_counter self + 1;
       notification_counter := notification_counter self |} in
  let task_id := "TASK-" +:+ format_04d (task_counter self) in
  let title := get_or action "title" (PStr "Untitled Task") in
  let priority := get_or action "priority" (PStr "medium") in
  let labels := get_or action "labels" (PList []) in
  let assignee := get_or action "assignee" (PStr "unassigned") in
  (self,
   _ ← py_join ", " labels;
   Return [
     ("status", PStr "success");
     ("task_id", PStr task_id);
     ("title", title);
     ("priority", priority);
     ("assignee", assignee);
     ("created_at", PStr (handler_clock w))
   ]).

Definition _execute_notify : handler := fun w self action =>
  let self :=
    {| execution_log := execution_log self;
       task_counter := task_counter self;
       notification_counter := notification_counter self + 1 |} in
  let channel := get_or action "channel" (PStr "general") in
  let message := get_or action "message" (PStr "Notification") in
  let mention := get action "mention" in
  (self,
   Return [
     ("status", PStr "success");
     ("channel", channel);
     ("message_id", PStr ("MSG-" +:+ format_04d (notification_counter self)));
     ("delivered_at", PStr (handler_clock w))
   ]).

Definition _execute_escalate : handler := fun w self action =>
  let reason := get_or action "reason" (PStr "Unknown") in
  let escalate_to := get_or action "escalate_to" (PStr "manager") in
  (self,
   Return [
     ("status", PStr "success");
     ("escalated_to", escalate_to);
     ("reason", reason);
     ("escalation_id", PStr ("ESC-" +:+ str_of_Z (first_draw w)));
     ("escalated_at", PStr (handler_clock w))
   ]).

Definition _execute_schedule : handler := fun w self action =>
  let activity := get_or action "activity" (PStr "task") in
  let resource_id := get_or action "resource_id" (PStr "unknown") in
  let time_slot := get_or action "time_slot" (PStr "next_available") in
  let duration := get_or action "duration" (PStr "30m") in
  (self,
   Return [
     ("status", PStr "success");
     ("activity", activity);
     ("resource_id", resource_id);
     ("scheduled_time", time_slot);
     ("duration", duration);
     ("schedule_id", PStr ("SCH-" +:+ str_of_Z (first_draw w)))
   ]).

Definition _execute_monitor : handler := fun w self action =>
  let target := get_or action "target" (PStr "unknown") in
  let metrics := get_or action "metrics" (PList []) in
  let duration := get_or action "duration" (PStr "30m") in
  (self,
   _ ← py_join ", " metrics;
   Return [
     ("status", PStr "success");
     ("target", target);
     ("metrics", metrics);
     ("duration", duration);
     ("monitor_id", PStr ("MON-" +:+ str_of_Z (first_draw w)));
     ("started_at", PStr (handler_clock w))
   ]).

Definition _execute_block_deployment : handler := fun w self action =>
  let reason := get_or action "reason" (PStr "Unknown") in
  let affected_services := get_or action "affected_services" (PList []) in
  (self,
   _ ← py_join ", " affected_services;
   Return [
     ("status", PStr "success");
     ("blocked", PBool true);
     ("reason", reason);
     ("affected_services", affected_services);
     ("block_id", PStr ("BLK-" +:+ str_of_Z (first_draw w)));
     ("blocked_at", PStr (handler_clock w))
   ]).

Definition _execute_aggregate : handler := fun w self action =>
  let aggregate_action := get_or action "action" (PStr "group") in
  let event_type := get_or action "event_type" (PStr "unknown") in
  let count := get_or action "count" (PInt 0) in
  (self,
   Return [
     ("status", PStr "success");
     ("action", aggregate_action);
     ("event_type", event_type);
     ("count", count);
     ("aggregate_id", PStr ("AGG-" +:+ str_of_Z (first_draw w)))
   ]).

(** With [create_pr] true the first draw names the pull request and the
    second the fix; otherwise the only draw names the fix. *)
Definition _execute_auto_fix : handler := fun w self action =>
  let fix_type := get_or action "fix_type" (PStr "generic") in
  let create_pr := get_or action "create_pr" (PBool false) in
  let pr_id := "PR-" +:+ str_of_Z (first_draw w) in
  let fix_draw := if truthy create_pr then second_draw w else first_draw w in
  (self,
   Return [
     ("status", PStr "success");
     ("fix_type", fix_type);
     ("pr_created", create_pr);
     ("pr_id", if truthy create_pr then PStr pr_id else PNone);
     ("fix_id", PStr ("FIX-" +:+ str_of_Z fix_draw));
     ("fixed_at", PStr (handler_clock w))
   ]).

Definition _execute_request_review : handler := fun w self action =>
  let resource_id := get_or action "resource_id" (PStr "unknown") in
  let reviewers := get_or action "reviewers" (PList []) in
  (self,
   _ ← py_join ", " reviewers;
   Return [
     ("status", PStr "success");
     ("resource_id", resource_id);
     ("reviewers", reviewers);
     ("request_id", PStr ("REV-" +:+ str_of_Z (first_draw w)))
   ]).

Definition _execute_unknown : handler := fun w self action =>
  let action_type := get_or action "type" (PStr "unknown") in
  (self,
   Return [
     ("status", PStr "skipped");
     ("reason", PStr ("Unknown action type: " +:+ py_str action_type))
   ]).

Definition _log_execution (w : World) (self : ActionExecutor)
  (action result : pydict) (status : string) : ActionExecutor :=
  let log_entry :=
    {| timestamp := log_clock w;
       action := action;
       result := result;
       status := status |} in
  {| execution_log := list_append (execution_log self) log_entry;
     task_counter := task_counter self;
     notification_counter := notification_counter self |}.

Definition executors : gmap string handler :=
  list_to_map [
    ("create_task", _execute_create_task);
    ("notify", _execute_notify);
    ("escalate", _execute_escalate);
    ("schedule", _execute_schedule);
    ("monitor", _execute_monitor);
    ("block_deployment", _execute_block_deployment);
    ("aggregate", _execute_aggregate);
    ("auto_fix", _execute_auto_fix);
    ("request_review", _execute_request_review)
  ].

(** The handler is looked up before the [try]: an exception of the lookup
    leaves [execute]; an exception of the handler is caught. *)
Definition execute (w : World) (self : ActionExecutor) (action : pydict)
  : ActionExecutor * pyresult pydict :=
  let action_type := get action "type" in
  match table_get executors action_type _execute_unknown with
  | Raise e => (self, Raise e)
  | Return executor =>
      let '(self, outcome) := executor w self action in
      match outcome with
      | Return result =>
          (_log_execution w self action result "success", Return result)
      | Raise e =>
          let error_result :=
            [("status", PStr "failed"); ("error", PStr (exn_text e))] in
          (_log_execution w self action error_result "failed",
           Return error_result)
      end
  end.

Record ExecutionStats := {
  total_executions : Z;
  successful : Z;
  failed : Z;
  tasks_created : Z;
  notifications_sent : Z
}.

Definition get_execution_stats (self : ActionExecutor) : ExecutionStats :=
  let total := Z.of_nat (length (execution_log self)) in
  let successful :=
    Z.of_nat
      (length
         (filter (fun log => status log = "success") (execution_log self))) in
  let failed := total - successful in
  {| total_executions := total;
     successful := successful;
     failed := failed;
     tasks_created := task_counter self;
     notifications_sent := notification_counter self |}.

End Executor.

(** * Vocabulary of the statements *)

Module Vocabulary.

Import Planner.

(** The kinds of the actions of a plan, in order. *)
Definition kinds (acts : list Action) : list ActionType := map type acts.

(** The value of a parameter of an action. *)
Definition param (a : Action) (k : string) : option pyval :=
  lookup_key k (params a).

(** A memory context whose event count is [n]. *)
Definition counted (n : Z) (context : gmap string Z) : Prop :=
  context !! "event_count" = Some n.

(** [keyword] occurs in [text] whatever the case of the letters: a stretch
    of [text] is [keyword] once put in lower case. *)
Definition mentions (keyword text : string) : Prop :=
  exists before stretch after,
    text = before +:+ stretch +:+ after /\ lower stretch = keyword.

Definition urgent_keywords : list string :=
  ["critical"; "urgent"; "blocker"; "security"].

Definition urgent (text : string) : Prop :=
  exists keyword, keyword ∈ urgent_keywords /\ mentions keyword text.

(** The base value of an event type, as the specification lists them. *)
Definition base_priority_of (event_type : string) : Z :=
  if String.eqb event_type "error" then 10
  else if String.eqb event_type "security_alert" then 10
  else if String.eqb event_type "test_failure" then 8
  else if String.eqb event_type "deployment" then 7
  else if String.eqb event_type "code_review" then 6
  else if String.eqb event_type "commit" then 5
  else if String.eqb event_type "issue_created" then 4
  else if String.eqb event_type "file_change" then 3
  else 5.

(** The payload a scorer that tolerates a failed parse works on. *)
Definition payload_of (data : loaded) : pyval :=
  match data with
  | Return v => v
  | Raise _ => PDict []
  end.

(** The service and the message of a parsed payload, when the payload is
    an object and both are strings (absent, they are ['unknown'] and the
    empty string). *)
Definition signature_fields (v : pyval) : option (string * string) :=
  match v with
  | PDict d =>
      match get_or d "service" (PStr "unknown"),
            get_or d "message" (PStr EmptyString) with
      | PStr service, PStr message => Some (service, message)
      | _, _ => None
      end
  | _ => None
  end.

(** The leading portion of a message: up to its first colon, or its first
    50 characters when it has no colon. *)
Definition leading_portion (message : string) : string :=
  if contains ":" message then split_head ":" message
  else take_str 50 message.

(** How one call of [execute] went: the handler returned, the handler
    raised, or the lookup of the handler raised before any handler ran. *)
Inductive call_outcome :=
| HandlerReturned
| HandlerRaised
| LookupRaised.

#[global] Instance call_outcome_eq_dec : EqDecision call_outcome.
Proof. solve_decision. Defined.

Definition outcome_of (w : Executor.World) (self : Executor.ActionExecutor)
  (action : pydict) : call_outcome :=
  match table_get Executor.executors (get action "type")
          Executor._execute_unknown with
  | Raise _ => LookupRaised
  | Return executor =>
      match (executor w self action).2 with
      | Return _ => HandlerReturned
      | Raise _ => HandlerRaised
      end
  end.

(** A sequence of calls of [execute] on one executor, each under its own
    clock and draws; a caller that catches what a call raises goes on with
    the next one. The result is the executor at the end and how each call
    went. *)
Fixpoint run (self : Executor.ActionExecutor)
  (calls : list (Executor.World * pydict))
  : Executor.ActionExecutor * list call_outcome :=
  match calls with
  | [] => (self, [])
  | (w, action) :: calls' =>
      let outcome := outcome_of w self action in
      let '(self', outcomes) := run (Executor.execute w self action).1 calls' in
      (self', outcome :: outcomes)
  end.

Definition count_outcome (o : call_outcome) (outcomes : list call_outcome)
  : Z :=
  Z.of_nat (length (filter (fun x => x = o) outcomes)).

(** The nine kinds the executor has a handler for. *)
Definition known_kinds : list string :=
  map value
    [CREATE_TASK; NOTIFY; ESCALATE; SCHEDULE; MONITOR; BLOCK_DEPLOYMENT;
     AGGREGATE; AUTO_FIX; REQUEST_REVIEW].

(** The kind of an action is none of the nine, and is a value the handler
    table can be asked for: [None] when the action has no type, a number, a
    string. *)
Definition unknown_kind (action : pydict) : Prop :=
  hashable (get action "type") = true
  /\ forall s, get action "type" = PStr s -> s ∉ known_kinds.

End Vocabulary.

Import Vocabulary.

(** * The rest of the code *)

(** ** More of Python *)

Module PyMore.

(** [k in d] on a dict. *)
Definition has_key (d : pydict) (k : string) : bool :=
  bool_decide (is_Some (lookup_key k d)).

(** [d[k] = v]: the value is replaced where the key stands, a new key goes
    to the end. *)
Fixpoint dict_set (d : pydict) (k : string) (v : pyval) : pydict :=
  match d with
  | [] => [(k, v)]
  | (k', v') :: d' =>
      if String.eqb k k' then (k', v) :: d' else (k', v') :: dict_set d' k v
  end.

(** [{**d, **more}]: the entries of [more] are set one after the other. *)
Definition dict_merge (d more : pydict) : pydict :=
  foldl (fun acc kv => dict_set acc kv.1 kv.2) d more.

(** [l[start:]]: a negative start counts from the end, and stops at the
    beginning. *)
Definition py_slice_from {A} (start : Z) (l : list A) : list A :=
  let len := Z.of_nat (length l) in
  let first := if start <? 0 then Z.max 0 (start + len) else Z.min start len in
  drop (Z.to_nat first) l.

(** [v in s] for a set of strings [s]: the value is hashed first. *)
Definition set_in (v : pyval) (s : gset string) : pyresult bool :=
  match v with
  | PStr x => Return (bool_decide (x ∈ s))
  | PList _ | PDict _ => Raise (unhashable v)
  | _ => Return false
  end.

(** [for x in v]: the items of a list, the characters of a string, the keys
    of a dict. *)
Definition py_iter (v : pyval) : pyresult (list pyval) :=
  match v with
  | PList l => Return l
  | PStr s => Return (PStr <$> chars s)
  | PDict d => Return (PStr <$> map fst d)
  | _ =>
      Raise (TypeError ("'" +:+ type_name v +:+ "' object is not iterable"))
  end.

Definition KeyError (key : string) : pyexn :=
  {| exn_class := "KeyError"; exn_text := repr_str key |}.

(** [d[k]] *)
Definition py_item (d : pydict) (k : string) : pyresult pyval :=
  match lookup_key k d with
  | Some v => Return v
  | None => Raise (KeyError k)
  end.

End PyMore.

Import PyMore.

(** ** executor.py, the rest *)

Module ExecutorLog.

Import Executor.

Definition get_recent_executions (self : ActionExecutor) (limit : Z)
  : list LogEntry :=
  py_slice_from (- limit) (execution_log self).

End ExecutorLog.

(** ** executor.py, with what it prints *)

Module ExecutorStdout.

Import Executor.

(** A printed line, by its code points: the first line of each handler
    starts with a pictograph, a code point above those a [string] holds. *)
Definition text : Type := list N.

Definition text_of (s : string) : text :=
  N_of_ascii <$> list_ascii_of_string s.

(** The standard output during one call of [execute]: what writing a line
    raises, if anything. A stream raises UnicodeEncodeError for a line its
    encoding has no bytes for. *)
Definition stdout : Type := text -> option pyexn.

Definition UnicodeEncodeError (msg : string) : pyexn :=
  {| exn_class := "UnicodeEncodeError"; exn_text := msg |}.

(** [print(line)] *)
Definition py_print (out : stdout) (line : text) : pyresult unit :=
  match out line with
  | None => Return tt
  | Some e => Raise e
  end.

(** The pictographs of the first lines. *)
Definition check_mark : text := [0x2713%N].
Definition loudspeaker : text := [0x1F4E2%N].
Definition up_arrow : text := [0x2B06%N; 0xFE0F%N].
Definition calendar : text := [0x1F4C5%N].
Definition magnifier : text := [0x1F50D%N].
Definition stop_sign : text := [0x1F6D1%N].
Definition bar_chart : text := [0x1F4CA%N].
Definition wrench : text := [0x1F527%N].
Definition silhouettes : text := [0x1F465%N].
Definition warning_sign : text := [0x26A0%N; 0xFE0F%N].

(** The handlers, with their prints in the order of the code: a print that
    raises ends the handler, after the counter was incremented. The handlers
    of [Executor] are these on a standard output that takes every line. *)
Definition _execute_create_task (out : stdout) : handler :=
  fun w self action =>
  let self :=
    {| execution_log := execution_log self;
       task_counter := task_counter self + 1;
       notification_counter := notification_counter self |} in
  let task_id := "TASK-" +:+ format_04d (task_counter self) in
  let title := get_or action "title" (PStr "Untitled Task") in
  let priority := get_or action "priority" (PStr "medium") in
  let labels := get_or action "labels" (PList []) in
  let assignee := get_or action "assignee" (PStr "unassigned") in
  (self,
   _ ← py_print out (check_mark ++ text_of (" Created Task: " +:+ task_id))%list;
   _ ← py_print out (text_of ("  Title: " +:+ py_str title));
   _ ← py_print out (text_of ("  Priority: " +:+ py_str priority));
   _ ← py_print out (text_of ("  Assignee: " +:+ py_str assignee));
   joined ← py_join ", " labels;
   _ ← py_print out (text_of ("  Labels: " +:+ joined));
   Return [
     ("status", PStr "success");
     ("task_id", PStr task_id);
     ("title", title);
     ("priority", priority);
     ("assignee", assignee);
     ("created_at", PStr (handler_clock w))
   ]).

Definition _execute_notify (out : stdout) : handler :=
  fun w self action =>
  let self :=
    {| execution_log := execution_log self;
       task_counter := task_counter self;
       notification_counter := notification_counter self + 1 |} in
  let channel := get_or action "channel" (PStr "general") in
  let message := get_or action "message" (PStr "Notification") in
  let mention := get action "mention" in
  (self,
   _ ← py_print out
         (loudspeaker
          ++ text_of (" Notification sent to #" +:+ py_str channel))%list;
   _ ← py_print out (text_of ("  Message: " +:+ py_str message));
   _ ← (if truthy mention
        then py_print out (text_of ("  Mentioned: @" +:+ py_str mention))
        else Return tt);
   Return [
     ("status", PStr "success");
     ("channel", channel);
     ("message_id", PStr ("MSG-" +:+ format_04d (notification_counter self)));
     ("delivered_at", PStr (handler_clock w))
   ]).

Definition _execute_escalate (out : stdout) : handler :=
  fun w self action =>
  let reason := get_or action "reason" (PStr "Unknown") in
  let escalate_to := get_or action "escalate_to" (PStr "manager") in
  (self,
   _ ← py_print out
         (up_arrow ++ text_of ("  Escalated to " +:+ py_str escalate_to))%list;
   _ ← py_print out (text_of ("  Reason: " +:+ py_str reason));
   Return [
     ("status", PStr "success");
     ("escalated_to", escalate_to);
     ("reason", reason);
     ("escalation_id", PStr ("ESC-" +:+ str_of_Z (first_draw w)));
     ("escalated_at", PStr (handler_clock w))
   ]).

Definition _execute_schedule (out : stdout) : handler :=
  fun w self action =>
  let activity := get_or action "activity" (PStr "task") in
  let resource_id := get_or action "resource_id" (PStr "unknown") in
  let time_slot := get_or action "time_slot" (PStr "next_available") in
  let duration := get_or action "duration" (PStr "30m") in
  (self,
   _ ← py_print out
         (calendar ++ text_of (" Scheduled: " +:+ py_str activity))%list;
   _ ← py_print out (text_of ("  Resource: " +:+ py_str resource_id));
   _ ← py_print out (text_of ("  Time slot: " +:+ py_str time_slot));
   _ ← py_print out (text_of ("  Duration: " +:+ py_str duration));
   Return [
     ("status", PStr "success");
     ("activity", activity);
     ("resource_id", resource_id);
     ("scheduled_time", time_slot);
     ("duration", duration);
     ("schedule_id", PStr ("SCH-" +:+ str_of_Z (first_draw w)))
   ]).

Definition _execute_monitor (out : stdout) : handler :=
  fun w self action =>
  let target := get_or action "target" (PStr "unknown") in
  let metrics := get_or action "metrics" (PList []) in
  let duration := get_or action "duration" (PStr "30m") in
  (self,
   _ ← py_print out
         (magnifier ++ text_of (" Started monitoring: " +:+ py_str target))%list;
   joined ← py_join ", " metrics;
   _ ← py_print out (text_of ("  Metrics: " +:+ joined));
   _ ← py_print out (text_of ("  Duration: " +:+ py_str duration));
   Return [
     ("status", PStr "success");
     ("target", target);
     ("metrics", metrics);
     ("duration", duration);
     ("monitor_id", PStr ("MON-" +:+ str_of_Z (first_draw w)));
     ("started_at", PStr (handler_clock w))
   ]).

Definition _execute_block_deployment (out : stdout) : handler :=
  fun w self action =>
  let reason := get_or action "reason" (PStr "Unknown") in
  let affected_services := get_or action "affected_services" (PList []) in
  (self,
   _ ← py_print out (stop_sign ++ text_of " DEPLOYMENT BLOCKED")%list;
   _ ← py_print out (text_of ("  Reason: " +:+ py_str reason));
   joined ← py_join ", " affected_services;
   _ ← py_print out (text_of ("  Affected services: " +:+ joined));
   Return [
     ("status", PStr "success");
     ("blocked", PBool true);
     ("reason", reason);
     ("affected_services", affected_services);
     ("block_id", PStr ("BLK-" +:+ str_of_Z (first_draw w)));
     ("blocked_at", PStr (handler_clock w))
   ]).

Definition _execute_aggregate (out : stdout) : handler :=
  fun w self action =>
  let aggregate_action := get_or action "action" (PStr "group") in
  let event_type := get_or action "event_type" (PStr "unknown") in
  let count := get_or action "count" (PInt 0) in
  (self,
   _ ← py_print out
         (bar_chart
          ++ text_of (" Aggregated " +:+ py_str count +:+ " "
                        +:+ py_str event_type +:+ " events"))%list;
   _ ← py_print out (text_of ("  Action: " +:+ py_str aggregate_action));
   Return [
     ("status", PStr "success");
     ("action", aggregate_action);
     ("event_type", event_type);
     ("count", count);
     ("aggregate_id", PStr ("AGG-" +:+ str_of_Z (first_draw w)))
   ]).

Definition _execute_auto_fix (out : stdout) : handler :=
  fun w self action =>
  let fix_type := get_or action "fix_type" (PStr "generic") in
  let create_pr := get_or action "create_pr" (PBool false) in
  let pr_id := "PR-" +:+ str_of_Z (first_draw w) in
  let fix_draw := if truthy create_pr then second_draw w else first_draw w in
  (self,
   _ ← py_print out
         (wrench ++ text_of (" Auto-fix executed: " +:+ py_str fix_type))%list;
   _ ← (if truthy create_pr
        then py_print out (text_of ("  Created PR: " +:+ pr_id))
        else Return tt);
   Return [
     ("status", PStr "success");
     ("fix_type", fix_type);
     ("pr_created", create_pr);
     ("pr_id", if truthy create_pr then PStr pr_id else PNone);
     ("fix_id", PStr ("FIX-" +:+ str_of_Z fix_draw));
     ("fixed_at", PStr (handler_clock w))
   ]).

Definition _execute_request_review (out : stdout) : handler :=
  fun w self action =>
  let resource_id := get_or action "resource_id" (PStr "unknown") in
  let reviewers := get_or action "reviewers" (PList []) in
  (self,
   _ ← py_print out
         (silhouettes
          ++ text_of (" Review requested for " +:+ py_str resource_id))%list;
   joined ← py_join ", " reviewers;
   _ ← py_print out (text_of ("  Reviewers: " +:+ joined));
   Return [
     ("status", PStr "success");
     ("resource_id", resource_id);
     ("reviewers", reviewers);
     ("request_id", PStr ("REV-" +:+ str_of_Z (first_draw w)))
   ]).

Definition _execute_unknown (out : stdout) : handler :=
  fun w self action =>
  let action_type := get_or action "type" (PStr "unknown") in
  (self,
   _ ← py_print out
         (warning_sign
          ++ text_of ("  Unknown action type: " +:+ py_str action_type))%list;
   Return [
     ("status", PStr "skipped");
     ("reason", PStr ("Unknown action type: " +:+ py_str action_type))
   ]).

Definition executors (out : stdout) : gmap string handler :=
  list_to_map [
    ("create_task", _execute_create_task out);
    ("notify", _execute_notify out);
    ("escalate", _execute_escalate out);
    ("schedule", _execute_schedule out);
    ("monitor", _execute_monitor out);
    ("block_deployment", _execute_block_deployment out);
    ("aggregate", _execute_aggregate out);
    ("auto_fix", _execute_auto_fix out);
    ("request_review", _execute_request_review out)
  ].

Definition execute (out : stdout) (w : World) (self : ActionExecutor)
  (action : pydict) : ActionExecutor * pyresult pydict :=
  let action_type := get action "type" in
  match table_get (executors out) action_type (_execute_unknown out) with
  | Raise e => (self, Raise e)
  | Return executor =>
      let '(self, outcome) := executor w self action in
      match outcome with
      | Return result =>
          (_log_execution w self action result "success", Return result)
      | Raise e =>
          let error_result :=
            [("status", PStr "failed"); ("error", PStr (exn_text e))] in
          (_log_execution w self action error_result "failed",
           Return error_result)
      end
  end.

End ExecutorStdout.

Module ExecutionValidator.

Definition validate (action : pydict) : bool :=
  let required_fields := ["type"] in
  if negb (forallb (fun field => has_key action field) required_fields)
  then false
  else
    let action_type := get action "type" in
    if is_str "create_task" action_type then has_key action "title"
    else if is_str "notify" action_type then
      has_key action "channel" && has_key action "message"
    else if is_str "block_deployment" action_type then
      has_key action "reason"
    else true.

(** What the loop does to one value: a string of more than 1000 characters
    is cut to 1000 and marked. *)
Definition sanitize_value (value : pyval) : pyval :=
  match value with
  | PStr s =>
      if (1000 <? String.length s)%nat
      then PStr (take_str 1000 s +:+ "... (truncated)")
      else value
  | _ => value
  end.

(** The loop visits the entries of the copy and assigns to the key it is
    at, which replaces the value in place. *)
Definition sanitize (action : pydict) : pydict :=
  let sanitized := action in
  map (fun kv => (kv.1, sanitize_value kv.2)) sanitized.

End ExecutionValidator.

(** ** observer.py *)

Module WorkflowObserver.

Definition event_types : gset string :=
  list_to_set [
    "error"; "security_alert"; "test_failure"; "deployment"; "code_review";
    "commit"; "issue_created"; "file_change"; "build_status";
    "performance_alert"
  ].

(** The membership test hashes the event type, so a list or a dict there
    raises. *)
Definition classify_event (raw_event : pydict) : pyresult pydict :=
  let event_type := get_or raw_event "event_type" (PStr "unknown") in
  known ← set_in event_type event_types;
  let event_type := if (known : bool) then event_type else PStr "unknown" in
  let enriched := [
    ("event_type", event_type);
    ("timestamp", get raw_event "timestamp");
    ("data", get_or raw_event "data" (PStr "{}"));
    ("source", get_or raw_event "source" (PStr "system"));
    ("metadata",
      PDict [("processed", PBool true); ("classifier_version", PStr "1.0")])
  ] in
  Return enriched.

Definition validate_event (event : pydict) : bool :=
  let required_fields := ["event_type"; "timestamp"; "data"] in
  forallb (fun field => has_key event field) required_fields.

End WorkflowObserver.

(** ** memory.py, the retrieval helpers *)

Module MemoryRetrieval.

Definition check_pattern_threshold (event_count threshold : Z) : bool :=
  threshold <=? event_count.

(** The memory state holds integer statistics by name. *)
Definition extract_context (memory_state : gmap string Z) : string :=
  let context_parts : list string := [] in
  let context_parts :=
    match memory_state !! "event_count" with
    | Some event_count =>
        if 1 <? event_count
        then list_append context_parts
               ("This event has occurred " +:+ str_of_Z event_count
                  +:+ " times")
        else context_parts
    | None => context_parts
    end in
  let context_parts :=
    match memory_state !! "max_priority" with
    | Some max_priority =>
        list_append context_parts
          ("Maximum priority seen: " +:+ str_of_Z max_priority)
    | None => context_parts
    end in
  match context_parts with
  | [] => "First occurrence"
  | _ => join "; " context_parts
  end.

End MemoryRetrieval.

(** ** agent_simple.py, planning and execution *)

Module AgentSimplePipeline.

Import Planner Executor.

(** [planner.plan] on the parsed payload, which need not be a dict. On a
    value without [.get]: the default plan only serialises the payload; a
    plan under the threshold is empty; past the threshold each of the five
    rule entries first plans an action that reads a field of the payload
    ([_plan_task_creation], or [_plan_scheduling] for code_review). *)
Definition planner_plan (event_type : string) (event_data : pyval)
  (priority : Z) (context : gmap string Z) : pyresult (list Action) :=
  match event_data with
  | PDict d => plan event_type d priority context
  | _ =>
      match action_rules !! event_type with
      | None =>
          Return
            [ {| type := CREATE_TASK;
                 priority := "low";
                 params := [
                   ("title", PStr ("Review " +:+ event_type));
                   ("description", PStr (json_dumps event_data));
                   ("labels",
                     PList [PStr event_type; PStr "automated"; PStr "review"])
                 ];
                 reasoning :=
                   "Unrecognized event type - creating task for review" |} ]
      | Some rules =>
          if priority <? priority_threshold rules then Return []
          else
            Raise (AttributeError
              ("'" +:+ type_name event_data
                 +:+ "' object has no attribute 'get'"))
      end
  end.

(** [{'type': action.type.value, 'priority': action.priority,
     **action.params}] *)
Definition action_dict (a : Action) : pydict :=
  dict_merge
    [("type", PStr (value (type a))); ("priority", PStr (priority a))]
    (params a).

(** The list [action_dicts] of [_plan_actions]. [event_count] is [None]
    when the memory has no row for the event. *)
Definition _plan_action_dicts (event_type : string) (data : loaded)
  (priority : Z) (event_count : option Z) : pyresult (list pydict) :=
  let data_dict :=
    match data with
    | Return v => v
    | Raise _ => PDict []
    end in
  let context : gmap string Z :=
    list_to_map [
      ("event_count",
        match event_count with
        | Some n => if n =? 0 then 1 else n
        | None => 1
        end);
      ("priority", priority)
    ] in
  actions ← planner_plan event_type data_dict priority context;
  Return (map action_dict actions).

Definition _plan_actions (event_type : string) (data : loaded)
  (priority : Z) (event_count : option Z) : pyresult string :=
  action_dicts ← _plan_action_dicts event_type data priority event_count;
  Return (json_dumps (PList (PDict <$> action_dicts))).

(** [self.executor.execute(action)] on an item that need not be a dict:
    [execute] starts with [action.get]. *)
Definition executor_execute (w : World) (self : ActionExecutor)
  (action : pyval) : ActionExecutor * pyresult pydict :=
  match action with
  | PDict d => execute w self d
  | _ =>
      (self,
       Raise (AttributeError
         ("'" +:+ type_name action +:+ "' object has no attribute 'get'")))
  end.

(** The loop over the actions; [worlds i] is the clock and the draws of the
    call on the item at position [i]. The first exception ends the loop,
    with the executor as the calls so far left it. *)
Fixpoint execute_each (worlds : nat -> World) (i : nat)
  (self : ActionExecutor) (actions : list pyval) (results : list pydict)
  : ActionExecutor * pyresult (list pydict) :=
  match actions with
  | [] => (self, Return results)
  | action :: rest =>
      let '(self, outcome) := executor_execute (worlds i) self action in
      match outcome with
      | Return result =>
          execute_each worlds (S i) self rest (list_append results result)
      | Raise e => (self, Raise e)
      end
  end.

(** The dict [_execute_actions] serialises. *)
Definition _execute_actions_response (worlds : nat -> World)
  (self : ActionExecutor) (action_plan : loaded) : ActionExecutor * pydict :=
  let attempt : ActionExecutor * pyresult pydict :=
    match action_plan with
    | Raise e => (self, Raise e)
    | Return actions =>
        if negb (truthy actions) then
          (self,
           Return [
             ("status", PStr "no_action");
             ("reason", PStr "No actions required for this event")
           ])
        else
          match py_iter actions with
          | Raise e => (self, Raise e)
          | Return items =>
              let '(self, outcome) := execute_each worlds 0 self items [] in
              match outcome with
              | Raise e => (self, Raise e)
              | Return results =>
                  (self,
                   Return [
                     ("status", PStr "completed");
                     ("actions_executed", PInt (Z.of_nat (length results)));
                     ("results", PList (PDict <$> results))
                   ])
              end
          end
    end in
  match attempt with
  | (self, Return response) => (self, response)
  | (self, Raise e) =>
      (self, [("status", PStr "error"); ("error", PStr (exn_text e))])
  end.

Definition _execute_actions (worlds : nat -> World) (self : ActionExecutor)
  (action_plan : loaded) : ActionExecutor * string :=
  let '(self, response) := _execute_actions_response worlds self action_plan in
  (self, json_dumps (PDict response)).

End AgentSimplePipeline.

(** ** agent.py, planning and execution *)

Module AgentPipeline.

Import Executor.

(** The list [actions] of [_plan_actions]; the payload is read with
    [.get], so a parsed payload that is no dict raises where a field is
    read. *)
Definition _plan_action_list (event_type : string) (data : loaded)
  (priority : Z) (event_count : option Z) : pyresult (list pydict) :=
  data_dict ← data;
  let repeated (n : Z) : bool :=
    match event_count with
    | Some count => negb (count =? 0) && (n <? count)
    | None => false
    end in
  if String.eqb event_type "error" && (8 <=? priority) then
    message ← py_get data_dict "message" (PStr "Unknown error");
    message' ← py_get data_dict "message" PNone;
    Return [
      [("type", PStr "create_task");
       ("title", PStr ("Fix: " +:+ py_str message));
       ("priority", PStr "high");
       ("labels", PList [PStr "bug"; PStr "automated"])];
      [("type", PStr "notify");
       ("channel", PStr "urgent");
       ("message", PStr ("Critical error detected: " +:+ py_str message'))]
    ]
  else if String.eqb event_type "test_failure" then
    test_name ← py_get data_dict "test_name" PNone;
    let actions := [
      [("type", PStr "create_task");
       ("title", PStr ("Test failed: " +:+ py_str test_name));
       ("priority", PStr "medium");
       ("labels", PList [PStr "test"; PStr "automated"])]
    ] in
    Return
      (if repeated 3
       then list_append actions
              [("type", PStr "escalate");
               ("reason", PStr "Repeated test failures detected")]
       else actions)
  else if String.eqb event_type "code_review" && (6 <=? priority) then
    pr_id ← py_get data_dict "pr_id" PNone;
    Return [
      [("type", PStr "schedule");
       ("activity", PStr "code_review");
       ("pr_id", pr_id);
       ("time_slot", PStr "next_available")]
    ]
  else if String.eqb event_type "deployment" then
    service ← py_get data_dict "service" PNone;
    Return [
      [("type", PStr "monitor");
       ("target", service);
       ("duration", PStr "30m")];
      [("type", PStr "create_task");
       ("title", PStr "Post-deployment verification");
       ("priority", PStr "high");
       ("labels", PList [PStr "deployment"; PStr "automated"])]
    ]
  else if String.eqb event_type "security_alert" then
    alert_type ← py_get data_dict "alert_type" PNone;
    details ← py_get data_dict "details" PNone;
    Return [
      [("type", PStr "create_task");
       ("title", PStr ("Security: " +:+ py_str alert_type));
       ("priority", PStr "critical");
       ("labels", PList [PStr "security"; PStr "automated"])];
      [("type", PStr "notify");
       ("channel", PStr "security");
       ("message", details)];
      [("type", PStr "block_deployment");
       ("reason", PStr "Security alert active")]
    ]
  else if String.eqb event_type "issue_created" then
    Return
      (if repeated 10
       then [
         [("type", PStr "aggregate");
          ("action", PStr "create_epic");
          ("reason", PStr "Multiple related issues detected")]
       ]
       else [])
  else Return [].

Definition _plan_actions (event_type : string) (data : loaded)
  (priority : Z) (event_count : option Z) : pyresult string :=
  actions ← _plan_action_list event_type data priority event_count;
  Return (json_dumps (PList (PDict <$> actions))).

(** The loop of [_execute_actions]: [execute] starts with [action.get],
    and after each call the type of the action is printed, read with
    [action['type']]. *)
Fixpoint execute_each (worlds : nat -> World) (i : nat)
  (self : ActionExecutor) (actions : list pyval) (results : list pydict)
  : ActionExecutor * pyresult (list pydict) :=
  match actions with
  | [] => (self, Return results)
  | PDict action :: rest =>
      let '(self, outcome) := execute (worlds i) self action in
      match outcome with
      | Return result =>
          let results := list_append results result in
          match py_item action "type" with
          | Return _ => execute_each worlds (S i) self rest results
          | Raise e => (self, Raise e)
          end
      | Raise e => (self, Raise e)
      end
  | action :: _ =>
      (self,
       Raise (AttributeError
         ("'" +:+ type_name action +:+ "' object has no attribute 'get'")))
  end.

(** The dict [_execute_actions] serialises. [reasoning] is [None] for an
    empty text, and the outcome of its parse otherwise. *)
Definition _execute_actions_response (worlds : nat -> World)
  (self : ActionExecutor) (action_plan : loaded) (reasoning : option loaded)
  : ActionExecutor * pydict :=
  let attempt : ActionExecutor * pyresult pydict :=
    match action_plan with
    | Raise e => (self, Raise e)
    | Return actions =>
        match default (Return (PDict [])) reasoning with
        | Raise e => (self, Raise e)
        | Return (PDict reasoning_data) =>
            if is_str "rejected" (get reasoning_data "validation") then
              (self,
               Return [
                 ("status", PStr "rejected");
                 ("reason", get reasoning_data "reasoning")
               ])
            else
              let actions :=
                if truthy (get reasoning_data "adjustments")
                then get reasoning_data "adjustments"
                else actions in
              match py_iter actions with
              | Raise e => (self, Raise e)
              | Return items =>
                  let '(self, outcome) :=
                    execute_each worlds 0 self items [] in
                  match outcome with
                  | Raise e => (self, Raise e)
                  | Return results =>
                      (self,
                       Return [
                         ("status", PStr "completed");
                         ("actions_executed",
                           PInt (Z.of_nat (length results)));
                         ("results", PList (PDict <$> results))
                       ])
                  end
              end
        | Return reasoning_data =>
            (self,
             Raise (AttributeError
               ("'" +:+ type_name reasoning_data
                  +:+ "' object has no attribute 'get'")))
        end
    end in
  match attempt with
  | (self, Return response) => (self, response)
  | (self, Raise e) =>
      (self, [("status", PStr "error"); ("error", PStr (exn_text e))])
  end.

Definition _execute_actions (worlds : nat -> World) (self : ActionExecutor)
  (action_plan : loaded) (reasoning : option loaded)
  : ActionExecutor * string :=
  let '(self, response) :=
    _execute_actions_response worlds self action_plan reasoning in
  (self, json_dumps (PDict response)).

End AgentPipeline.

(** * Vocabulary of the further statements *)

Module Vocabulary2.

Import Planner.

(** The order in which [plan] appends the kinds of action. *)
Definition plan_order : list ActionType :=
  [CREATE_TASK; NOTIFY; SCHEDULE; MONITOR; BLOCK_DEPLOYMENT; ESCALATE;
   AGGREGATE; AUTO_FIX].

(** The event count [plan] reads from a memory context. *)
Definition event_count_of (context : gmap string Z) : Z :=
  default 1 (context !! "event_count").

(** The kinds of the plan of a type with the rule entry [rules], at or
    above its threshold, once the auto-fix test has answered [fixable]. *)
Definition kinds_by_rule (event_type : string) (rules : Rule)
  (priority event_count : Z) (fixable : bool) : list ActionType :=
  ((if in_list "create_task" (actions rules) then [CREATE_TASK] else [])
   ++ (if in_list "notify" (actions rules) && (8 <=? priority)
       then [NOTIFY] else [])
   ++ (if in_list "schedule" (actions rules) then [SCHEDULE] else [])
   ++ (if in_list "monitor" (actions rules) then [MONITOR] else [])
   ++ (if in_list "block_deployment" (actions rules)
       then [BLOCK_DEPLOYMENT] else [])
   ++ (if escalation_condition rules event_count then [ESCALATE] else [])
   ++ (if (3 <=? event_count)
          && in_list event_type ["issue_created"; "test_failure"]
       then [AGGREGATE] else [])
   ++ (if fixable then [AUTO_FIX] else []))%list.

(** The issue types [_can_auto_fix] knows a fix for. *)
Definition auto_fixable_types : list string :=
  ["dependency_vulnerability"; "formatting_error"; "configuration_drift"].

(** The calls of a sequence whose action is of the kind [kind]. *)
Definition calls_of_kind (kind : string)
  (calls : list (Executor.World * pydict)) : Z :=
  Z.of_nat
    (length (filter (fun call => is_str kind (get call.2 "type")) calls)).

(** What each call of a sequence answers, in order; a caller that catches
    what a call raises goes on with the next one. *)
Fixpoint run_results (self : Executor.ActionExecutor)
  (calls : list (Executor.World * pydict)) : list (pyresult pydict) :=
  match calls with
  | [] => []
  | (w, action) :: calls' =>
      (Executor.execute w self action).2
      :: run_results (Executor.execute w self action).1 calls'
  end.

(** The actions [plan] can put in a plan for an event. *)
Definition planned_shapes (event_type : string) (event_data : pydict)
  (priority event_count : Z) : list Action :=
  [ _plan_task_creation event_type event_data priority;
    _plan_notification event_type event_data priority;
    _plan_scheduling event_type event_data;
    _plan_monitoring event_type event_data;
    _plan_deployment_block event_type event_data;
    _plan_escalation event_type event_data event_count;
    _plan_aggregation event_type event_data event_count;
    _plan_auto_fix event_type event_data ]
  ++ _default_plan event_type event_data.

(** [', '.join(v)] returns. *)
Definition joinable (v : pyval) : Prop :=
  exists text, py_join ", " v = Return text.

(** An item of a plan the executor can look a handler up for: a dict whose
    type is hashable. *)
Definition dispatchable (item : pyval) : Prop :=
  exists action, item = PDict action /\ hashable (get action "type") = true.

End Vocabulary2.

Import Vocabulary2.

Module StdoutVocabulary.

Import ExecutorStdout.

(** What [execute] answers when its handler raised [e]. *)
Definition failed_with (e : pyexn) : pydict :=
  [("status", PStr "failed"); ("error", PStr (exn_text e))].

(** The result is the answer to a line the standard output refused. *)
Definition refused (out : stdout) (result : pydict) : Prop :=
  exists line e, out line = Some e /\ result = failed_with e.

(** The line holds a code point above U+00FF. *)
Definition above_latin1 (line : text) : bool :=
  existsb (fun cp => (255 <? cp)%N) line.

(** A standard output whose encoding has no bytes above U+00FF, as latin-1
    (or ascii, which stops sooner): it refuses every line that holds a code
    point above. *)
Definition narrow (out : stdout) : Prop :=
  forall line, above_latin1 line = true -> is_Some (out line).

(** Such a stream: it takes the other lines. *)
Definition latin1 : stdout := fun line =>
  if above_latin1 line
  then Some (UnicodeEncodeError
               "'latin-1' codec can't encode character: ordinal not in range(256)")
  else None.

End StdoutVocabulary.

Import StdoutVocabulary.

(** * Properties *)

(** Membership in a list written out: found at some position, or refuted
    position by position. *)
Ltac found :=
  repeat first [ apply list_elem_of_here | apply list_elem_of_further ].
Ltac absent :=
  let H := fresh in
  intros H;
  repeat (apply elem_of_cons in H as [H | H]; [ discriminate H | ]);
  apply elem_of_nil in H; exact H.

(** ** The planner *)

Section PlannerProperties.

Import Planner.


(** The rule table has exactly five entries. *)
Lemma action_rules_lookup (event_type : string) (rules : Rule) :
  action_rules !! event_type = Some rules ->
  event_type ∈
    ["error"; "security_alert"; "test_failure"; "deployment"; "code_review"].
Proof.
  unfold action_rules, _initialize_rules. cbn [list_to_map foldr uncurry fst snd].
  intros H.
  repeat (apply lookup_insert_Some in H as [[<- _] | [_ H]];
          [ found | ]).
  rewrite lookup_empty in H. discriminate.
Qed.

Lemma action_rules_issue_created : action_rules !! "issue_created" = None.
Proof. reflexivity. Qed.


Lemma can_auto_fix_hashable (event_type : string) (event_data : pydict)
  (event_count : Z) :
  hashable (issue_type_of event_data) = true ->
  exists fixable,
    _can_auto_fix event_type event_data event_count = Return fixable.
Proof.
  unfold _can_auto_fix. intros H.
  destruct (issue_type_of event_data); try discriminate; eexists; reflexivity.
Qed.

(** C1, as the code has it: issue_created has no entry in the rule table,
    so whatever the count the plan is the default review task and holds no
    aggregate action. *)
Theorem plan_issue_created_is_default (event_data : pydict) (priority : Z)
  (context : gmap string Z) :
  plan "issue_created" event_data priority context
  = Return (_default_plan "issue_created" event_data)
  /\ kinds (_default_plan "issue_created" event_data) = [CREATE_TASK]
  /\ AGGREGATE ∉ kinds (_default_plan "issue_created" event_data).
Proof.
  unfold plan. rewrite action_rules_issue_created.
  repeat split. cbn. absent.
Qed.

(** Of the memory context the planner reads the event count only. *)
Lemma plan_reads_event_count (event_type : string) (event_data : pydict)
  (priority : Z) (context context' : gmap string Z) :
  context !! "event_count" = context' !! "event_count" ->
  plan event_type event_data priority context
  = plan event_type event_data priority context'.
Proof. intros H. unfold plan. rewrite H. reflexivity. Qed.

Lemma plan_counted (event_type : string) (event_data : pydict)
  (priority n : Z) (context : gmap string Z) :
  counted n context ->
  plan event_type event_data priority context
  = plan event_type event_data priority {[ "event_count" := n ]}.
Proof.
  intros H. apply plan_reads_event_count. rewrite H.
  symmetry. apply lookup_singleton_eq.
Qed.

(** The aggregation rule on the type that has a rule entry: a test failure
    seen at least 3 times, at or above its threshold, is aggregated into an
    epic. *)
Lemma plan_test_failure_aggregates (event_data : pydict) (priority n : Z)
  (context : gmap string Z) :
  hashable (issue_type_of event_data) = true ->
  counted n context ->
  3 <= n ->
  6 <= priority ->
  exists acts a,
    plan "test_failure" event_data priority context = Return acts
    /\ a ∈ acts
    /\ type a = AGGREGATE
    /\ param a "action" = Some (PStr "create_epic")
    /\ param a "count" = Some (PInt n).
Proof.
  intros Hh Hn H3 H6.
  destruct (can_auto_fix_hashable "test_failure" event_data n Hh) as [b Hb].
  unfold plan. change (action_rules !! "test_failure")
    with (Some {| priority_threshold := 6;
                  actions := ["create_task"];
                  escalation_condition := fun count => 5 <=? count |}).
  cbn [priority_threshold actions escalation_condition].
  rewrite Hn. cbn [default from_option id]. rewrite Hb.
  apply Z.ltb_ge in H6. rewrite H6. apply Z.leb_le in H3. rewrite H3.
  change (in_list "create_task" ["create_task"]) with true.
  change (in_list "notify" ["create_task"]) with false.
  change (in_list "schedule" ["create_task"]) with false.
  change (in_list "monitor" ["create_task"]) with false.
  change (in_list "block_deployment" ["create_task"]) with false.
  change (in_list "test_failure" ["issue_created"; "test_failure"]) with true.
  cbn [andb mbind pyresult_bind mret pyresult_ret]. unfold list_append.
  eexists. exists (_plan_aggregation "test_failure" event_data n).
  split; [ reflexivity | ].
  split; [ | repeat split ].
  destruct (5 <=? n), b; cbn [app]; found.
Qed.

(** C2: scenario B, a first security alert of priority 10, is planned as
    create_task, notify, block_deployment and escalate. *)
Theorem plan_security_alert_scenario (context : gmap string Z) :
  counted 1 context ->
  exists acts,
    plan "security_alert"
      [("alert_type", PStr "dependency_vulnerability");
       ("details", PStr "CVE-2024-1234")]
      10 context
    = Return acts
    /\ kinds acts = [CREATE_TASK; NOTIFY; BLOCK_DEPLOYMENT; ESCALATE].
Proof.
  intros H. rewrite (plan_counted _ _ _ _ _ H).
  eexists. split; vm_compute; reflexivity.
Qed.

Lemma plan_security_alert_scenario_witness :
  exists acts,
    plan "security_alert"
      [("alert_type", PStr "dependency_vulnerability");
       ("details", PStr "CVE-2024-1234")]
      10 (<[ "event_count" := 1 ]> {[ "priority" := 10 ]})
    = Return acts
    /\ kinds acts = [CREATE_TASK; NOTIFY; BLOCK_DEPLOYMENT; ESCALATE].
Proof.
  apply (plan_security_alert_scenario
           (<[ "event_count" := 1 ]> {[ "priority" := 10 ]})).
  reflexivity.
Defined.





(** C4: below the priority threshold of its rule entry an event gets the
    empty plan, whatever the payload and the memory context. *)
Theorem plan_below_threshold (event_type : string) (rules : Rule)
  (event_data : pydict) (priority : Z) (context : gmap string Z) :
  action_rules !! event_type = Some rules ->
  priority < priority_threshold rules ->
  plan event_type event_data priority context = Return [].
Proof.
  intros Hrules Hlt. unfold plan. rewrite Hrules.
  apply Z.ltb_lt in Hlt. rewrite Hlt. reflexivity.
Qed.

Lemma plan_below_threshold_witness :
  plan "error" [("message", PStr "Disk almost full")] 6
    {[ "event_count" := 4 ]} = Return [].
Proof.
  eapply plan_below_threshold; [ reflexivity | simpl; lia ].
Defined.

(** C5: scenario A, a first critical error of priority 10, is planned as a
    create_task of severity critical for the on-call engineer and a notify on
    the urgent channel mentioning oncall, and nothing else: no escalate. *)
Theorem plan_error_scenario (context : gmap string Z) :
  counted 1 context ->
  exists task notice,
    plan "error"
      [("message", PStr "Database connection timeout");
       ("severity", PStr "critical");
       ("service", PStr "api-gateway")]
      10 context
    = Return [task; notice]
    /\ type task = CREATE_TASK
    /\ priority task = "critical"
    /\ param task "assignee" = Some (PStr "oncall_engineer")
    /\ type notice = NOTIFY
    /\ param notice "channel" = Some (PStr "urgent")
    /\ param notice "mention" = Some (PStr "oncall")
    /\ ESCALATE ∉ kinds [task; notice].
Proof.
  intros H. rewrite (plan_counted _ _ _ _ _ H).
  do 2 eexists. split; [ vm_compute; reflexivity | ].
  repeat split. cbn. absent.
Qed.

Lemma plan_error_scenario_witness :
  exists task notice,
    plan "error"
      [("message", PStr "Database connection timeout");
       ("severity", PStr "critical");
       ("service", PStr "api-gateway")]
      10 (<[ "event_count" := 1 ]> {[ "priority" := 10 ]})
    = Return [task; notice]
    /\ type task = CREATE_TASK
    /\ priority task = "critical"
    /\ param task "assignee" = Some (PStr "oncall_engineer")
    /\ type notice = NOTIFY
    /\ param notice "channel" = Some (PStr "urgent")
    /\ param notice "mention" = Some (PStr "oncall")
    /\ ESCALATE ∉ kinds [task; notice].
Proof.
  apply (plan_error_scenario (<[ "event_count" := 1 ]> {[ "priority" := 10 ]})).
  reflexivity.
Defined.

(** The other two scenarios of the test script: the fifth failure of a
    test, and a production deployment. *)
Example plan_test_failure_scenario :
  kinds <$> plan "test_failure"
              [("test_name", PStr "test_user_login");
               ("error", PStr "AssertionError: Expected 200, got 401");
               ("suite", PStr "integration")]
              8 {[ "event_count" := 5 ]}
  = Return [CREATE_TASK; ESCALATE; AGGREGATE].
Proof. vm_compute. reflexivity. Qed.

Example plan_deployment_scenario :
  kinds <$> plan "deployment"
              [("service", PStr "user-service");
               ("environment", PStr "production");
               ("version", PStr "v2.3.1");
               ("status", PStr "success")]
              7 {[ "event_count" := 1 ]}
  = Return [CREATE_TASK; MONITOR].
Proof. vm_compute. reflexivity. Qed.

End PlannerProperties.

(** ** Text *)

Section TextProperties.

Lemma prefix_app (a b : string) : String.prefix a (a +:+ b) = true.
Proof.
  induction a as [| c a IH]; simpl.
  - destruct b; reflexivity.
  - destruct (ascii_dec c c); [ exact IH | congruence ].
Qed.

Lemma prefix_inv (a b : string) :
  String.prefix a b = true -> exists c, b = a +:+ c.
Proof.
  revert b. induction a as [| x a IH]; intros b H.
  - exists b. reflexivity.
  - destruct b as [| y b]; simpl in H; [ discriminate | ].
    destruct (ascii_dec x y) as [-> | ]; [ | discriminate ].
    destruct (IH b H) as [c ->]. exists c. reflexivity.
Qed.

(** [contains] decides the occurrence of a substring. *)
Lemma contains_spec (needle hay : string) :
  contains needle hay = true
  <-> exists before after, hay = before +:+ needle +:+ after.
Proof.
  split.
  - induction hay as [| c hay IH]; cbn [contains]; intros H.
    + rewrite orb_false_r in H. apply prefix_inv in H as [after ->].
      exists EmptyString, after. reflexivity.
    + apply orb_true_iff in H as [H | H].
      * apply prefix_inv in H as [after ->].
        exists EmptyString, after. reflexivity.
      * destruct (IH H) as (before & after & ->).
        exists (String c before), after. reflexivity.
  - intros (before & after & ->).
    induction before as [| c before IH].
    + change (EmptyString +:+ needle +:+ after) with (needle +:+ after).
      assert (String.prefix needle (needle +:+ after) = true) as Hp
        by apply prefix_app.
      destruct (needle +:+ after); cbn [contains]; rewrite Hp; reflexivity.
    + change (String c before +:+ needle +:+ after)
        with (String c (before +:+ needle +:+ after)).
      cbn [contains]. rewrite IH. apply orb_true_r.
Qed.

Lemma lower_app (a b : string) : lower (a +:+ b) = lower a +:+ lower b.
Proof. induction a as [| c a IH]; simpl; [ | rewrite IH ]; reflexivity. Qed.

(** Lower-casing keeps the positions, so a split of the lowered text is a
    split of the text. *)
Lemma lower_split (text a b : string) :
  lower text = a +:+ b ->
  exists a' b', text = a' +:+ b' /\ lower a' = a /\ lower b' = b.
Proof.
  revert text. induction a as [| c a IH]; intros text H.
  - exists EmptyString, text. auto.
  - destruct text as [| x text]; simpl in H; [ discriminate | ].
    injection H as Hc H. destruct (IH text H) as (a' & b' & -> & <- & <-).
    exists (String x a'), b'. simpl. rewrite Hc. auto.
Qed.

(** Searching the lowered text is searching the text case-insensitively. *)
Lemma contains_lower_mentions (keyword text : string) :
  contains keyword (lower text) = true <-> mentions keyword text.
Proof.
  rewrite contains_spec. unfold mentions. split.
  - intros (before & after & H).
    apply lower_split in H as (b' & rest & -> & _ & H).
    apply lower_split in H as (k' & a' & -> & Hk & _).
    exists b', k', a'. auto.
  - intros (before & stretch & after & -> & <-).
    exists (lower before), (lower after). rewrite !lower_app. reflexivity.
Qed.

Lemma existsb_urgent (text : string) :
  existsb (fun keyword => contains keyword (lower text)) urgent_keywords = true
  <-> urgent text.
Proof.
  rewrite existsb_exists. unfold urgent. split.
  - intros (k & Hin & Hk). exists k. split.
    + apply list_elem_of_In. exact Hin.
    + apply contains_lower_mentions. exact Hk.
  - intros (k & Hin & Hk). exists k. split.
    + apply list_elem_of_In. exact Hin.
    + apply contains_lower_mentions. exact Hk.
Qed.

End TextProperties.

(** ** The priority scorer *)

Section ScorerProperties.

Lemma priority_map_lookup (event_type : string) :
  default 5
    ((list_to_map [
        ("error", 10); ("security_alert", 10); ("test_failure", 8);
        ("deployment", 7); ("code_review", 6); ("commit", 5);
        ("issue_created", 4); ("file_change", 3)
      ] : gmap string Z) !! event_type)
  = base_priority_of event_type.
Proof.
  unfold base_priority_of. cbn [list_to_map foldr uncurry fst snd].
  repeat
    match goal with
    | |- context [String.eqb event_type ?k] =>
        destruct (String.eqb_spec event_type k) as [-> | Hne];
        [ reflexivity | rewrite lookup_insert_ne by congruence; clear Hne ]
    end.
  reflexivity.
Qed.

Lemma base_priority_bounds (event_type : string) :
  3 <= base_priority_of event_type <= 10.
Proof.
  unfold base_priority_of.
  repeat match goal with |- context [if ?b then _ else _] => destruct b end;
    lia.
Qed.

(** C6: the score lies in 0..10; it is the base value of the type plus 3,
    clamped to 10, when the text of the payload mentions one of the four
    keywords whatever the case, and the base value otherwise. A payload
    that did not parse counts as the empty mapping. *)
Theorem calculate_priority_spec (event_type : string) (data : loaded) :
  let score := AgentSimple._calculate_priority event_type data in
  let text := py_str (payload_of data) in
  0 <= score <= 10
  /\ (urgent text -> score = Z.min 10 (base_priority_of event_type + 3))
  /\ (~ urgent text -> score = base_priority_of event_type).
Proof.
  intros score text. subst score. unfold AgentSimple._calculate_priority.
  rewrite priority_map_lookup.
  change (match data with Return v => v | Raise _ => PDict [] end)
    with (payload_of data).
  fold text. change ["critical"; "urgent"; "blocker"; "security"]
    with urgent_keywords.
  pose proof (base_priority_bounds event_type) as Hb.
  pose proof (existsb_urgent text) as Hu.
  destruct (existsb _ urgent_keywords).
  - split; [ lia | ]. split; [ reflexivity | ].
    intros Hn. exfalso. apply Hn, Hu. reflexivity.
  - split; [ lia | ]. split; [ | reflexivity ].
    intros H. apply Hu in H. discriminate.
Qed.

(** C7, as the code has it: on a payload whose parse raised, the scorer of
    agent_simple.py answers what it answers on the empty mapping, and the
    scorer of agent.py raises what the parse raised. *)
Theorem calculate_priority_unparsable (event_type : string) (e : pyexn) :
  AgentSimple._calculate_priority event_type (Raise e)
  = AgentSimple._calculate_priority event_type (Return (PDict []))
  /\ AgentSimple._calculate_priority event_type (Raise e)
     = base_priority_of event_type
  /\ Agent._calculate_priority event_type (Raise e) = Raise e.
Proof.
  split; [ reflexivity | ]. split; [ | reflexivity ].
  unfold AgentSimple._calculate_priority. rewrite priority_map_lookup.
  reflexivity.
Qed.

(** The text [not json]: what [json.loads] raises on it leaves the scorer
    of agent.py, and is absorbed by the one of agent_simple.py. *)
Example calculate_priority_not_json :
  let outcome : loaded :=
    Raise (JSONDecodeError "Expecting value: line 1 column 1 (char 0)") in
  Agent._calculate_priority "error" outcome = outcome ≫= (fun _ => Return 10)
  /\ AgentSimple._calculate_priority "error" outcome = 10.
Proof. split; reflexivity. Qed.

(** Where the payload parses the two scorers agree. *)
Lemma calculate_priority_agree (event_type : string) (v : pyval) :
  Agent._calculate_priority event_type (Return v)
  = Return (AgentSimple._calculate_priority event_type (Return v)).
Proof. reflexivity. Qed.

End ScorerProperties.

(** ** The error signature *)

Section SignatureProperties.

Import Memory.

Lemma join_two (sep a b : string) : join sep [a; b] = a +:+ sep +:+ b.
Proof. reflexivity. Qed.

(** C9, as the code has it: the signature is service, two colons and the
    leading portion of the message when the payload parses to an object
    whose service and message are strings; it is 'unknown' for any other
    payload, parsed or not. *)
Theorem extract_error_signature_spec (data : loaded) :
  _extract_error_signature data
  = match data with
    | Return v =>
        match signature_fields v with
        | Some (service, message) =>
            service +:+ "::" +:+ leading_portion message
        | None => "unknown"
        end
    | Raise _ => "unknown"
    end.
Proof.
  destruct data as [v | e]; [ | reflexivity ].
  destruct v as [ | b | z | r | s | l | d ]; try reflexivity.
  unfold _extract_error_signature, signature_attempt, signature_fields,
    leading_portion.
  cbn [mbind pyresult_bind py_get].
  destruct (get_or d "service" (PStr "unknown")) as [ | ? | ? | ? | service | ? | ? ];
    destruct (get_or d "message" (PStr EmptyString))
      as [ | ? | ? | ? | message | items | fields ];
    try reflexivity;
    cbn [py_in mbind pyresult_bind];
    try (destruct (contains ":" message); reflexivity);
    try (destruct (existsb _ items); reflexivity);
    try (destruct (existsb _ fields); reflexivity).
Qed.

(** A payload that parses, whose message is a number: the signature is
    'unknown', which no service and portion joined by two colons spell. *)
Lemma signature_numeric_message :
  _extract_error_signature
    (Return (PDict [("service", PStr "api"); ("message", PInt 504)]))
  = "unknown"
  /\ forall service portion : string,
       _extract_error_signature
         (Return (PDict [("service", PStr "api"); ("message", PInt 504)]))
       <> service +:+ "::" +:+ portion.
Proof.
  split; [ reflexivity | ].
  intros service portion H.
  assert (contains "::" (service +:+ "::" +:+ portion) = true) as Hc.
  { apply contains_spec. exists service, portion. reflexivity. }
  rewrite <- H in Hc. discriminate Hc.
Qed.

End SignatureProperties.

(** ** The executor *)

Section ExecutorProperties.

Import Executor.

Ltac handler_cases H :=
  unfold executors in H;
  cbn [list_to_map foldr uncurry fst snd] in H;
  repeat (apply lookup_insert_Some in H as [[_ <-] | [_ H]];
          [ | ]);
  [ .. | rewrite lookup_empty in H; discriminate H ].

(** No handler touches the log. *)
Lemma executors_keep_log (s : string) (h : handler) :
  executors !! s = Some h ->
  forall w self action,
    execution_log (h w self action).1 = execution_log self.
Proof. intros H. handler_cases H; intros; reflexivity. Qed.

Lemma lookup_keeps_log (kind : pyval) (h : handler) :
  table_get executors kind _execute_unknown = Return h ->
  forall w self action,
    execution_log (h w self action).1 = execution_log self.
Proof.
  intros H.
  assert (h = _execute_unknown \/ exists s, executors !! s = Some h) as [-> | [s Hs]].
  { destruct kind; cbn [table_get] in H; try discriminate H;
      injection H as <-; try (left; reflexivity).
    destruct (executors !! s) eqn:E; cbn [default];
      [ right; exists s; exact E | left; reflexivity ]. }
  - intros; reflexivity.
  - eapply executors_keep_log; eassumption.
Qed.

(** One call adds one entry to the log, marked by how the handler ended,
    and none when the lookup of the handler raised. *)
Lemma execute_log (w : World) (self : ActionExecutor) (action : pydict) :
  exists entries,
    execution_log (execute w self action).1
    = (execution_log self ++ entries)%list
    /\ map status entries
       = match outcome_of w self action with
         | HandlerReturned => ["success"]
         | HandlerRaised => ["failed"]
         | LookupRaised => []
         end.
Proof.
  unfold execute, outcome_of.
  destruct (table_get executors (get action "type") _execute_unknown)
    as [h | e] eqn:E.
  - pose proof (lookup_keeps_log _ _ E w self action) as Hlog.
    destruct (h w self action) as [self' [result | e]]; cbn in Hlog |- *;
      rewrite Hlog; eexists; split; reflexivity.
  - exists []. cbn. rewrite app_nil_r. split; reflexivity.
Qed.

(** The counts of the log after a sequence of calls, from any executor. *)
Lemma run_counts (calls : list (World * pydict)) (self : ActionExecutor) :
  let log0 := execution_log self in
  let log := execution_log (run self calls).1 in
  let outcomes := (run self calls).2 in
  length (filter (fun entry => status entry = "success") log)
  = (length (filter (fun entry => status entry = "success") log0)
     + length (filter (fun x => x = HandlerReturned) outcomes))%nat
  /\ length log
     = (length log0
        + length (filter (fun x => x = HandlerReturned) outcomes)
        + length (filter (fun x => x = HandlerRaised) outcomes))%nat.
Proof.
  revert self. induction calls as [| [w action] calls IH]; intros self.
  - cbn. split; lia.
  - cbn [run].
    destruct (IH (execute w self action).1) as [IHs IHt].
    destruct (run (execute w self action).1 calls) as [self' outcomes].
    cbn [fst snd] in *.
    destruct (execute_log w self action) as (entries & Hlog & Hst).
    rewrite Hlog in IHs, IHt. rewrite filter_app, length_app in IHs.
    rewrite length_app in IHt. rewrite IHs, IHt. clear IHs IHt Hlog.
    rewrite !filter_cons.
    destruct (outcome_of w self action);
      destruct entries as [| entry [| ? ?]]; try discriminate Hst;
      try (injection Hst as Hst; rewrite filter_cons, Hst);
      repeat case_decide; try congruence; try discriminate;
      cbn [length filter list_filter]; split; lia.
Qed.

(** The handler table has the nine kinds and no other. *)
Lemma executors_unknown (s : string) :
  s ∉ known_kinds -> executors !! s = None.
Proof.
  intros H. unfold executors. cbn [list_to_map foldr uncurry fst snd].
  repeat (rewrite lookup_insert_ne;
          [ | intros <-; apply H; unfold known_kinds; cbn; found ]).
  apply lookup_empty.
Qed.

(** An action of a kind that is none of the nine is answered [skipped],
    and its call is logged as a success. *)
Lemma execute_unknown_kind (w : World) (self : ActionExecutor)
  (action : pydict) :
  unknown_kind action ->
  outcome_of w self action = HandlerReturned
  /\ exists result,
       (execute w self action).2 = Return result
       /\ lookup_key "status" result = Some (PStr "skipped").
Proof.
  intros [Hh Hnone]. unfold outcome_of, execute.
  destruct (get action "type") as [ | | | | s | | ] eqn:E;
    try discriminate Hh; cbn [table_get];
    try rewrite (executors_unknown s (Hnone s eq_refl)); cbn;
    (split; [ reflexivity | eexists; split; reflexivity ]).
Qed.

(** An exception of the handler is answered [failed], with its text. *)
Lemma execute_handler_raised (w : World) (self : ActionExecutor)
  (action : pydict) (h : handler) (e : pyexn) :
  table_get executors (get action "type") _execute_unknown = Return h ->
  (h w self action).2 = Raise e ->
  (execute w self action).2
  = Return [("status", PStr "failed"); ("error", PStr (exn_text e))].
Proof.
  intros Hh He. unfold execute. rewrite Hh.
  destruct (h w self action) as [self' outcome]. cbn in He. subst outcome.
  reflexivity.
Qed.

(** A handler that raises: the labels of a task must be strings. *)
Example execute_create_task_bad_labels (w : World) :
  (execute w __init__
     [("type", PStr "create_task"); ("title", PStr "Fix login");
      ("labels", PList [PStr "bug"; PInt 3])]).2
  = Return
      [("status", PStr "failed");
       ("error", PStr "sequence item 1: expected str instance, int found")].
Proof. reflexivity. Qed.

(** The handler is looked up outside the [try]: when the type of the action
    is a list or a dict the lookup raises, no handler runs and nothing is
    logged. *)
Lemma handler_lookup_raises (w : World) (self : ActionExecutor)
  (action : pydict) :
  hashable (get action "type") = false ->
  execute w self action = (self, Raise (unhashable (get action "type")))
  /\ outcome_of w self action = LookupRaised.
Proof.
  intros H. unfold execute, outcome_of.
  destruct (get action "type"); try discriminate H; split; reflexivity.
Qed.

(** C8, as the code has it: an action whose type is a list makes [execute]
    raise a TypeError, with the executor and its log left as they were. *)
Theorem execute_unhashable_type_raises (w : World) (self : ActionExecutor) :
  exists e,
    execute w self
      [("type", PList [PStr "notify"]); ("channel", PStr "general")]
    = (self, Raise e)
    /\ exn_class e = "TypeError".
Proof.
  eexists. split; [ apply handler_lookup_raises | ]; reflexivity.
Qed.

(** C10: after any sequence of calls from a fresh executor, the total is
    the successful plus the failed, the successful are the calls whose
    handler returned and the failed the calls whose handler raised; a call
    on an action of unknown kind is one whose handler returned, answered
    [skipped]. *)
Theorem execution_stats_after_calls (calls : list (World * pydict)) :
  let stats := get_execution_stats (run __init__ calls).1 in
  let outcomes := (run __init__ calls).2 in
  total_executions stats = successful stats + failed stats
  /\ successful stats = count_outcome HandlerReturned outcomes
  /\ failed stats = count_outcome HandlerRaised outcomes
  /\ forall w self action,
       unknown_kind action ->
       run self [(w, action)] = ((execute w self action).1, [HandlerReturned])
       /\ exists result,
            (execute w self action).2 = Return result
            /\ lookup_key "status" result = Some (PStr "skipped").
Proof.
  intros stats outcomes. subst stats outcomes.
  destruct (run_counts calls __init__) as [Hs Ht].
  cbn [execution_log __init__ filter list_filter length Nat.add] in Hs, Ht.
  unfold get_execution_stats, count_outcome.
  cbn [total_executions successful failed].
  split; [ lia | ]. split; [ lia | ]. split; [ lia | ].
  intros w self act Hu.
  destruct (execute_unknown_kind w self act Hu) as [Ho Hr].
  split; [ cbn [run]; rewrite Ho; reflexivity | exact Hr ].
Qed.

End ExecutorProperties.

(** * Further properties *)

(** ** The planner, as a whole *)

Section PlanShape.

Import Planner.

(** The five entries of the rule table. *)
Lemma action_rules_cases (event_type : string) (rules : Rule) :
  action_rules !! event_type = Some rules ->
  (event_type = "error"
   /\ rules = {| priority_threshold := 7;
                 actions := ["create_task"; "notify"];
                 escalation_condition := fun count => 3 <=? count |})
  \/ (event_type = "security_alert"
      /\ rules = {| priority_threshold := 0;
                    actions := ["create_task"; "notify"; "block_deployment"];
                    escalation_condition := fun count => true |})
  \/ (event_type = "test_failure"
      /\ rules = {| priority_threshold := 6;
                    actions := ["create_task"];
                    escalation_condition := fun count => 5 <=? count |})
  \/ (event_type = "deployment"
      /\ rules = {| priority_threshold := 5;
                    actions := ["monitor"; "create_task"];
                    escalation_condition := fun count => false |})
  \/ (event_type = "code_review"
      /\ rules = {| priority_threshold := 6;
                    actions := ["schedule"];
                    escalation_condition := fun count => 10 <=? count |}).
Proof.
  unfold action_rules, _initialize_rules.
  cbn [list_to_map foldr uncurry fst snd]. intros H.
  repeat (apply lookup_insert_Some in H as [[<- <-] | [_ H]];
          [ tauto | ]).
  rewrite lookup_empty in H. discriminate.
Qed.

Lemma action_rules_none (event_type : string) :
  event_type ∉
    ["error"; "security_alert"; "test_failure"; "deployment"; "code_review"] ->
  action_rules !! event_type = None.
Proof.
  intros H. destruct (action_rules !! event_type) as [rules |] eqn:E;
    [ | reflexivity ].
  apply action_rules_lookup in E. contradiction.
Qed.

Lemma kinds_append_if (b : bool) (acts : list Action) (a : Action) :
  kinds (if b then list_append acts a else acts)
  = (kinds acts ++ (if b then [type a] else []))%list.
Proof.
  unfold kinds, list_append. destruct b.
  - apply map_app.
  - symmetry. apply app_nil_r.
Qed.

(** What [plan] is on a type with a rule entry. *)
Lemma plan_by_rule (event_type : string) (rules : Rule) (event_data : pydict)
  (priority : Z) (context : gmap string Z) :
  action_rules !! event_type = Some rules ->
  (priority < priority_threshold rules
   /\ plan event_type event_data priority context = Return [])
  \/ (priority_threshold rules <= priority
      /\ hashable (issue_type_of event_data) = false
      /\ plan event_type event_data priority context
         = Raise (unhashable (issue_type_of event_data)))
  \/ (priority_threshold rules <= priority
      /\ exists acts fixable,
           _can_auto_fix event_type event_data (event_count_of context)
           = Return fixable
           /\ plan event_type event_data priority context = Return acts
           /\ kinds acts
              = kinds_by_rule event_type rules priority
                  (event_count_of context) fixable).
Proof.
  intros Hrules. unfold plan. rewrite Hrules.
  fold (event_count_of context).
  destruct (Z.ltb_spec priority (priority_threshold rules)) as [Hlt | Hge];
    [ left; split; [ exact Hlt | reflexivity ] | right ].
  destruct (_can_auto_fix event_type event_data (event_count_of context))
    as [fixable | e] eqn:Hfix.
  - right. split; [ exact Hge | ]. eexists. exists fixable.
    split; [ reflexivity | ]. split; [ reflexivity | ].
    cbv zeta. rewrite !kinds_append_if. unfold kinds_by_rule.
    rewrite <- !app_assoc. reflexivity.
  - left. split; [ exact Hge | ].
    unfold _can_auto_fix in Hfix.
    destruct (issue_type_of event_data); try discriminate Hfix;
      (split; [ reflexivity | ]); cbn in Hfix |- *; congruence.
Qed.

(** A plan that is returned is the default plan, empty, or made by the
    rule entry of the type. *)
Lemma plan_returned (event_type : string) (event_data : pydict)
  (priority : Z) (context : gmap string Z) (acts : list Action) :
  plan event_type event_data priority context = Return acts ->
  (action_rules !! event_type = None /\ kinds acts = [CREATE_TASK])
  \/ (exists rules,
        action_rules !! event_type = Some rules
        /\ priority < priority_threshold rules /\ acts = [])
  \/ (exists rules fixable,
        action_rules !! event_type = Some rules
        /\ priority_threshold rules <= priority
        /\ _can_auto_fix event_type event_data (event_count_of context)
           = Return fixable
        /\ kinds acts
           = kinds_by_rule event_type rules priority
               (event_count_of context) fixable).
Proof.
  intros H. destruct (action_rules !! event_type) as [rules |] eqn:E.
  - right.
    destruct (plan_by_rule event_type rules event_data priority context E)
      as [[Hlt Hp] | [(_ & _ & Hp) | (Hge & acts' & fixable & Hf & Hp & Hk)]];
      rewrite Hp in H; try discriminate H; injection H as <-.
    + left. exists rules. auto.
    + right. exists rules, fixable. auto.
  - left. split; [ reflexivity | ].
    unfold plan in H. rewrite E in H. injection H as <-. reflexivity.
Qed.

Lemma segment_sublist (b b' : bool) (k : ActionType) :
  (b = true -> b' = true) ->
  sublist (if b then [k] else []) (if b' then [k] else []).
Proof.
  intros H. destruct b.
  - rewrite H by reflexivity. reflexivity.
  - apply sublist_nil_l.
Qed.

Lemma segment_cons (b : bool) (k : ActionType) (rest tail : list ActionType) :
  sublist rest tail ->
  sublist ((if b then [k] else []) ++ rest)%list (k :: tail).
Proof.
  intros H. destruct b; cbn [app].
  - apply sublist_skip. exact H.
  - apply sublist_cons. exact H.
Qed.

Lemma kinds_by_rule_in_order (event_type : string) (rules : Rule)
  (priority event_count : Z) (fixable : bool) :
  sublist (kinds_by_rule event_type rules priority event_count fixable)
    plan_order.
Proof.
  unfold kinds_by_rule, plan_order.
  repeat apply segment_cons.
  destruct fixable; [ reflexivity | apply sublist_nil_l ].
Qed.

Lemma plan_order_NoDup : NoDup plan_order.
Proof.
  unfold plan_order.
  repeat (apply NoDup_cons_2; [ absent | ]). apply NoDup_nil_2.
Qed.

(** X1. A plan that is returned holds its kinds in one fixed order, each at
    most once, and never asks for a review. *)
Theorem plan_kinds_in_order (event_type : string) (event_data : pydict)
  (priority : Z) (context : gmap string Z) (acts : list Action) :
  plan event_type event_data priority context = Return acts ->
  sublist (kinds acts) plan_order
  /\ NoDup (kinds acts)
  /\ REQUEST_REVIEW ∉ kinds acts.
Proof.
  intros H.
  assert (sublist (kinds acts) plan_order) as Hs.
  { destruct (plan_returned _ _ _ _ _ H)
      as [[_ ->] | [(rules & _ & _ & ->) | (rules & fixable & _ & _ & _ & ->)]].
    - apply (sublist_app [CREATE_TASK] [CREATE_TASK] []); [ reflexivity | ].
      apply sublist_nil_l.
    - apply sublist_nil_l.
    - apply kinds_by_rule_in_order. }
  split; [ exact Hs | ]. split.
  - eapply sublist_NoDup; [ apply plan_order_NoDup | exact Hs ].
  - intros Hin. apply (elem_of_sublist _ _ _ Hin) in Hs. revert Hs.
    unfold plan_order. absent.
Qed.

Lemma plan_kinds_in_order_witness :
  sublist [CREATE_TASK; ESCALATE; AGGREGATE] plan_order
  /\ NoDup [CREATE_TASK; ESCALATE; AGGREGATE]
  /\ REQUEST_REVIEW ∉ [CREATE_TASK; ESCALATE; AGGREGATE].
Proof.
  apply (plan_kinds_in_order "test_failure"
           [("test_name", PStr "test_user_login")] 8
           {[ "event_count" := 5 ]}
           [_plan_task_creation "test_failure"
              [("test_name", PStr "test_user_login")] 8;
            _plan_escalation "test_failure"
              [("test_name", PStr "test_user_login")] 5;
            _plan_aggregation "test_failure"
              [("test_name", PStr "test_user_login")] 5]).
  vm_compute. reflexivity.
Defined.

(** X2. [plan] raises exactly on a type with a rule entry, at or above its
    threshold, whose payload has a list or a dict as alert type (or, with
    no alert type, as error type); what it raises is the TypeError of the
    lookup. *)
Theorem plan_raises_iff (event_type : string) (event_data : pydict)
  (priority : Z) (context : gmap string Z) (e : pyexn) :
  plan event_type event_data priority context = Raise e
  <-> exists rules,
        action_rules !! event_type = Some rules
        /\ priority_threshold rules <= priority
        /\ hashable (issue_type_of event_data) = false
        /\ e = unhashable (issue_type_of event_data).
Proof.
  split.
  - intros H. destruct (action_rules !! event_type) as [rules |] eqn:E.
    + exists rules. split; [ reflexivity | ].
      destruct (plan_by_rule event_type rules event_data priority context E)
        as [[_ Hp] | [(Hge & Hh & Hp) | (_ & acts & fixable & _ & Hp & _)]];
        rewrite Hp in H; try discriminate H.
      injection H as <-. auto.
    + unfold plan in H. rewrite E in H. discriminate H.
  - intros (rules & E & Hge & Hh & ->).
    destruct (plan_by_rule event_type rules event_data priority context E)
      as [[Hlt _] | [(_ & _ & Hp) | (_ & acts & fixable & Hf & _ & _)]].
    + lia.
    + exact Hp.
    + exfalso. unfold _can_auto_fix in Hf.
      destruct (issue_type_of event_data); discriminate.
Qed.

Ltac to_arith :=
  repeat
    match goal with
    | H : (_ <=? _) = true |- _ => apply Z.leb_le in H
    | H : (_ <=? _) = false |- _ => apply Z.leb_gt in H
    | H : (_ <? _) = true |- _ => apply Z.ltb_lt in H
    | H : (_ <? _) = false |- _ => apply Z.ltb_ge in H
    end.

(** After the conditions of a plan have been decided: a kind is in the
    list written out, or is not. *)
Ltac kind_iff :=
  split;
  [ let Hin := fresh in
    intros Hin;
    first [ exfalso; revert Hin; absent
          | repeat split; first [ reflexivity | lia | tauto ] ]
  | let HP := fresh in
    intros HP;
    first [ solve [ found ]
          | exfalso; first [ lia | intuition (first [ discriminate | lia ]) ] ] ].

(** The kinds of the plan of each type with a rule entry, at or above its
    threshold, by cases on what is left to decide. *)
Ltac rule_cases H Hk :=
  destruct (plan_returned _ _ _ _ _ H)
    as [[Hnone Hk]
       | [(rules & Hsome & Hlt & ->)
         | (rules & fixable & Hsome & Hge & Hfix & Hk)]];
  [ | apply action_rules_cases in Hsome
        as [[-> ->] | [[-> ->] | [[-> ->] | [[-> ->] | [-> ->]]]]];
      cbn [priority_threshold] in Hlt
    | apply action_rules_cases in Hsome
        as [[-> ->] | [[-> ->] | [[-> ->] | [[-> ->] | [-> ->]]]]];
      cbn [priority_threshold] in Hge;
      unfold kinds_by_rule in Hk;
      cbn [actions escalation_condition] in Hk ].

(** X3. A returned plan holds a notify action exactly for an error or a
    security alert of priority 8 or more. *)
Theorem plan_notifies_iff (event_type : string) (event_data : pydict)
  (priority : Z) (context : gmap string Z) (acts : list Action) :
  plan event_type event_data priority context = Return acts ->
  NOTIFY ∈ kinds acts
  <-> (event_type = "error" \/ event_type = "security_alert")
      /\ 8 <= priority.
Proof.
  intros H. rule_cases H Hk.
  - rewrite Hk. split; [ intros Hin; exfalso; revert Hin; absent | ].
    intros [[-> | ->] _]; discriminate Hnone.
  - kind_iff.
  - kind_iff.
  - kind_iff.
  - kind_iff.
  - kind_iff.
  - rewrite Hk; cbn -[Z.leb]; destruct (8 <=? priority) eqn:?,
      (3 <=? event_count_of context) eqn:?, fixable; to_arith; kind_iff.
  - rewrite Hk; cbn -[Z.leb]; destruct (8 <=? priority) eqn:?,
      (3 <=? event_count_of context) eqn:?, fixable; to_arith; kind_iff.
  - rewrite Hk; cbn -[Z.leb]; destruct (3 <=? event_count_of context) eqn:?,
      (5 <=? event_count_of context) eqn:?, fixable; to_arith; kind_iff.
  - rewrite Hk; cbn -[Z.leb]; destruct (3 <=? event_count_of context) eqn:?,
      fixable; to_arith; kind_iff.
  - rewrite Hk; cbn -[Z.leb]; destruct (3 <=? event_count_of context) eqn:?,
      (10 <=? event_count_of context) eqn:?, fixable; to_arith; kind_iff.
Qed.

Ltac split_ifs :=
  rewrite ?andb_true_r, ?andb_false_r;
  repeat
    match goal with
    | |- context [if ?b then _ else _] => destruct b eqn:?
    end.

(** X4. A returned plan holds an aggregate action exactly for a test
    failure of priority 6 or more seen at least 3 times: for no other type,
    issue_created included. *)
Theorem plan_aggregates_iff (event_type : string) (event_data : pydict)
  (priority : Z) (context : gmap string Z) (acts : list Action) :
  plan event_type event_data priority context = Return acts ->
  AGGREGATE ∈ kinds acts
  <-> event_type = "test_failure"
      /\ 6 <= priority
      /\ 3 <= event_count_of context.
Proof.
  intros H. rule_cases H Hk.
  - rewrite Hk. split; [ intros Hin; exfalso; revert Hin; absent | ].
    intros (-> & _); discriminate Hnone.
  - kind_iff.
  - kind_iff.
  - kind_iff.
  - kind_iff.
  - kind_iff.
  - rewrite Hk; cbn -[Z.leb]; split_ifs; to_arith; kind_iff.
  - rewrite Hk; cbn -[Z.leb]; split_ifs; to_arith; kind_iff.
  - rewrite Hk; cbn -[Z.leb]; split_ifs; to_arith; kind_iff.
  - rewrite Hk; cbn -[Z.leb]; split_ifs; to_arith; kind_iff.
  - rewrite Hk; cbn -[Z.leb]; split_ifs; to_arith; kind_iff.
Qed.

Lemma plan_aggregates_iff_witness :
  AGGREGATE ∈ [CREATE_TASK; ESCALATE; AGGREGATE]
  <-> "test_failure" = "test_failure"
      /\ 6 <= 8
      /\ 3 <= event_count_of {[ "event_count" := 5 ]}.
Proof.
  apply (plan_aggregates_iff "test_failure"
           [("test_name", PStr "test_user_login")] 8
           {[ "event_count" := 5 ]}
           [_plan_task_creation "test_failure"
              [("test_name", PStr "test_user_login")] 8;
            _plan_escalation "test_failure"
              [("test_name", PStr "test_user_login")] 5;
            _plan_aggregation "test_failure"
              [("test_name", PStr "test_user_login")] 5]).
  vm_compute. reflexivity.
Defined.

Lemma plan_notifies_iff_witness :
  NOTIFY ∈ [CREATE_TASK; MONITOR]
  <-> ("deployment" = "error" \/ "deployment" = "security_alert")
      /\ 8 <= 9.
Proof.
  apply (plan_notifies_iff "deployment" [("service", PStr "user-service")] 9
           {[ "event_count" := 1 ]}
           [_plan_task_creation "deployment"
              [("service", PStr "user-service")] 9;
            _plan_monitoring "deployment"
              [("service", PStr "user-service")]]).
  vm_compute. reflexivity.
Defined.

(** When the auto-fix test answers yes. *)
Lemma can_auto_fix_true (event_type : string) (event_data : pydict)
  (event_count : Z) (fixable : bool) :
  _can_auto_fix event_type event_data event_count = Return fixable ->
  fixable = true
  <-> (exists s, issue_type_of event_data = PStr s /\ s ∈ auto_fixable_types)
      /\ 2 <= event_count.
Proof.
  unfold _can_auto_fix. intros H.
  destruct (issue_type_of event_data) as [ | b | z | r | s | l | d ];
    cbn [table_get mbind pyresult_bind] in H; try discriminate H;
    injection H as <-.
  1-4: split; [ discriminate | intros [(s & Hs & _) _]; discriminate Hs ].
  cbn [list_to_map foldr uncurry fst snd].
  unfold auto_fixable_types.
  destruct (String.eqb_spec s "dependency_vulnerability") as [-> | N1];
    [ | rewrite lookup_insert_ne by congruence;
        destruct (String.eqb_spec s "formatting_error") as [-> | N2];
        [ | rewrite lookup_insert_ne by congruence;
            destruct (String.eqb_spec s "configuration_drift") as [-> | N3];
            [ | rewrite lookup_insert_ne by congruence ] ] ].
  1-3: rewrite lookup_insert_eq; cbn [default from_option id andb];
       rewrite Z.leb_le; split;
       [ intros Hn; split; [ eexists; split; [ reflexivity | found ] | exact Hn ]
       | intros [_ Hn]; exact Hn ].
  rewrite lookup_empty. cbn. split; [ discriminate | ].
  intros [(s' & Hs & Hin) _]. injection Hs as <-. exfalso.
  repeat (apply elem_of_cons in Hin as [Hin | Hin]; [ congruence | ]).
  apply elem_of_nil in Hin. exact Hin.
Qed.

Lemma auto_fix_in_kinds_by_rule (event_type : string) (rules : Rule)
  (priority event_count : Z) (fixable : bool) :
  AUTO_FIX ∈ kinds_by_rule event_type rules priority event_count fixable
  <-> fixable = true.
Proof.
  unfold kinds_by_rule. rewrite !elem_of_app. split.
  - intros H.
    repeat
      match goal with
      | H : _ \/ _ |- _ => destruct H as [H | H]
      | H : AUTO_FIX ∈ (if ?b then _ else _) |- _ => destruct b
      | H : AUTO_FIX ∈ [] |- _ => apply elem_of_nil in H; contradiction
      | H : AUTO_FIX ∈ [?k] |- _ =>
          apply list_elem_of_singleton in H; try discriminate H
      end.
    reflexivity.
  - intros ->. do 7 right. apply list_elem_of_here.
Qed.

(** X5. A returned plan holds an auto-fix action exactly for a type with a
    rule entry, at or above its threshold, seen at least twice, whose alert
    type (or, with no alert type, error type) is one of the three fixable
    issue types. *)
Theorem plan_auto_fixes_iff (event_type : string) (event_data : pydict)
  (priority : Z) (context : gmap string Z) (acts : list Action) :
  plan event_type event_data priority context = Return acts ->
  AUTO_FIX ∈ kinds acts
  <-> (exists rules,
         action_rules !! event_type = Some rules
         /\ priority_threshold rules <= priority)
      /\ (exists s,
            issue_type_of event_data = PStr s /\ s ∈ auto_fixable_types)
      /\ 2 <= event_count_of context.
Proof.
  intros H.
  destruct (plan_returned _ _ _ _ _ H)
    as [[Hnone Hk]
       | [(rules & Hsome & Hlt & ->)
         | (rules & fixable & Hsome & Hge & Hfix & Hk)]].
  - rewrite Hk. split; [ intros Hin; exfalso; revert Hin; absent | ].
    intros [(rules & Hsome & _) _]. congruence.
  - split; [ intros Hin; exfalso; revert Hin; absent | ].
    intros [(rules' & Hsome' & Hge) _].
    assert (rules' = rules) as -> by congruence. lia.
  - rewrite Hk, auto_fix_in_kinds_by_rule.
    rewrite (can_auto_fix_true _ _ _ _ Hfix). split.
    + intros [Hs Hn]. split; [ exists rules; auto | auto ].
    + intros [_ Hrest]. exact Hrest.
Qed.

Lemma plan_auto_fixes_iff_witness :
  AUTO_FIX ∈ [CREATE_TASK; NOTIFY; BLOCK_DEPLOYMENT; ESCALATE; AUTO_FIX]
  <-> (exists rules,
         action_rules !! "security_alert" = Some rules
         /\ priority_threshold rules <= 10)
      /\ (exists s,
            issue_type_of [("alert_type", PStr "dependency_vulnerability")]
            = PStr s
            /\ s ∈ auto_fixable_types)
      /\ 2 <= event_count_of {[ "event_count" := 2 ]}.
Proof.
  apply (plan_auto_fixes_iff "security_alert"
           [("alert_type", PStr "dependency_vulnerability")] 10
           {[ "event_count" := 2 ]}
           [_plan_task_creation "security_alert"
              [("alert_type", PStr "dependency_vulnerability")] 10;
            _plan_notification "security_alert"
              [("alert_type", PStr "dependency_vulnerability")] 10;
            _plan_deployment_block "security_alert"
              [("alert_type", PStr "dependency_vulnerability")];
            _plan_escalation "security_alert"
              [("alert_type", PStr "dependency_vulnerability")] 2;
            _plan_auto_fix "security_alert"
              [("alert_type", PStr "dependency_vulnerability")]]).
  vm_compute. reflexivity.
Defined.

(** X6. A type outside the five of the rule table is never dropped and
    never raises: whatever the priority, the payload and the memory, its
    plan is the one default review task. *)
Theorem plan_unruled_type (event_type : string) (event_data : pydict)
  (priority : Z) (context : gmap string Z) :
  event_type ∉
    ["error"; "security_alert"; "test_failure"; "deployment"; "code_review"] ->
  plan event_type event_data priority context
  = Return (_default_plan event_type event_data)
  /\ kinds (_default_plan event_type event_data) = [CREATE_TASK]
  /\ Planner.priority <$> _default_plan event_type event_data = ["low"].
Proof.
  intros H. unfold plan. rewrite (action_rules_none _ H).
  repeat split.
Qed.

Lemma plan_unruled_type_witness :
  plan "commit" [("commit_id", PStr "abc123")] 0 ∅
  = Return (_default_plan "commit" [("commit_id", PStr "abc123")])
  /\ kinds (_default_plan "commit" [("commit_id", PStr "abc123")])
     = [CREATE_TASK]
  /\ Planner.priority <$> _default_plan "commit" [("commit_id", PStr "abc123")]
     = ["low"].
Proof.
  apply (plan_unruled_type "commit" [("commit_id", PStr "abc123")] 0 ∅).
  absent.
Defined.

(** The escalation test of a rule entry, once true, stays true as the count
    grows. *)
Lemma escalation_monotone (event_type : string) (rules : Rule) (n n' : Z) :
  action_rules !! event_type = Some rules ->
  n <= n' ->
  escalation_condition rules n = true ->
  escalation_condition rules n' = true.
Proof.
  intros H Hn.
  apply action_rules_cases in H
    as [[_ ->] | [[_ ->] | [[_ ->] | [[_ ->] | [_ ->]]]]];
    cbn [escalation_condition]; rewrite ?Z.leb_le; auto; lia.
Qed.

Lemma can_auto_fix_monotone (event_type : string) (event_data : pydict)
  (n n' : Z) (fixable fixable' : bool) :
  _can_auto_fix event_type event_data n = Return fixable ->
  _can_auto_fix event_type event_data n' = Return fixable' ->
  n <= n' ->
  fixable = true -> fixable' = true.
Proof.
  unfold _can_auto_fix. intros H H' Hn.
  destruct (table_get _ (issue_type_of event_data) false) as [known | e];
    cbn [mbind pyresult_bind] in H, H'; [ | discriminate H ].
  injection H as <-. injection H' as <-.
  rewrite !andb_true_iff, !Z.leb_le. intros [-> Hc]. split; [ reflexivity | lia ].
Qed.

(** X7. A plan only grows with the priority and the count: what is planned
    for an event is still planned, in the same order, when the same event
    comes with a priority and a count that are no smaller. *)
Theorem plan_grows (event_type : string) (event_data : pydict)
  (priority priority' : Z) (context context' : gmap string Z)
  (acts acts' : list Action) :
  plan event_type event_data priority context = Return acts ->
  plan event_type event_data priority' context' = Return acts' ->
  priority <= priority' ->
  event_count_of context <= event_count_of context' ->
  sublist (kinds acts) (kinds acts').
Proof.
  intros H H' Hp Hn.
  destruct (plan_returned _ _ _ _ _ H)
    as [[Hnone Hk]
       | [(rules & Hsome & Hlt & ->)
         | (rules & fixable & Hsome & Hge & Hfix & Hk)]].
  - destruct (plan_returned _ _ _ _ _ H')
      as [[_ Hk'] | [(r & Hr & _) | (r & f & Hr & _)]];
      [ rewrite Hk, Hk'; reflexivity | congruence | congruence ].
  - apply sublist_nil_l.
  - destruct (plan_returned _ _ _ _ _ H')
      as [[Hnone' _]
         | [(rules' & Hsome' & Hlt' & _)
           | (rules' & fixable' & Hsome' & _ & Hfix' & Hk')]].
    + congruence.
    + assert (rules' = rules) as -> by congruence. lia.
    + assert (rules' = rules) as -> by congruence.
      rewrite Hk, Hk'. unfold kinds_by_rule.
      repeat (apply sublist_app; [ apply segment_sublist | ]);
        [ auto | | auto | auto | auto | | | ].
      * rewrite !andb_true_iff, !Z.leb_le. intros [-> Hc].
        split; [ reflexivity | lia ].
      * apply (escalation_monotone event_type); assumption.
      * rewrite !andb_true_iff, !Z.leb_le. intros [Hc ->].
        split; [ lia | reflexivity ].
      * apply segment_sublist.
        apply (can_auto_fix_monotone event_type event_data
                 (event_count_of context) (event_count_of context'));
          assumption.
Qed.

Lemma plan_grows_witness :
  sublist [CREATE_TASK] [CREATE_TASK; NOTIFY; ESCALATE].
Proof.
  apply (plan_grows "error" [("message", PStr "Out of memory error")]
           7 10 {[ "event_count" := 1 ]} {[ "event_count" := 3 ]}
           [_plan_task_creation "error"
              [("message", PStr "Out of memory error")] 7]
           [_plan_task_creation "error"
              [("message", PStr "Out of memory error")] 10;
            _plan_notification "error"
              [("message", PStr "Out of memory error")] 10;
            _plan_escalation "error"
              [("message", PStr "Out of memory error")] 3]);
    [ vm_compute; reflexivity | vm_compute; reflexivity | lia
    | vm_compute; discriminate ].
Defined.

(** X8. The table of escalation thresholds, which [plan] does not read,
    agrees with the escalation tests of the rule table on every count of 1
    or more. *)
Theorem escalation_thresholds_agree (event_type : string) (rules : Rule)
  (threshold count : Z) :
  escalation_thresholds !! event_type = Some threshold ->
  action_rules !! event_type = Some rules ->
  1 <= count ->
  escalation_condition rules count = (threshold <=? count).
Proof.
  intros Ht Hr Hc.
  apply action_rules_cases in Hr
    as [[-> ->] | [[-> ->] | [[-> ->] | [[-> ->] | [-> ->]]]]];
    vm_compute in Ht; try discriminate Ht; injection Ht as <-;
    cbn [escalation_condition]; try reflexivity.
  symmetry. apply Z.leb_le. exact Hc.
Qed.

Lemma escalation_thresholds_agree_witness :
  escalation_condition
    {| priority_threshold := 0;
       actions := ["create_task"; "notify"; "block_deployment"];
       escalation_condition := fun count => true |} 4
  = (1 <=? 4).
Proof.
  apply (escalation_thresholds_agree "security_alert");
    [ reflexivity | reflexivity | lia ].
Defined.

End PlanShape.

(** ** The executor: log and counters *)

Section ExecutorLogProperties.

Import Executor ExecutorLog.

(** X9. [get_recent_executions]: a positive limit gives the last entries of
    the log, as many as the limit or all of them when the log is shorter; a
    limit of 0 gives the whole log, not the empty list; a negative limit
    drops that many entries from the front. *)
Theorem get_recent_executions_spec (self : ActionExecutor) (limit : Z) :
  let log := execution_log self in
  (0 < limit ->
   get_recent_executions self limit
   = drop (length log - Z.to_nat limit) log
   /\ length (get_recent_executions self limit)
      = Nat.min (Z.to_nat limit) (length log))
  /\ (limit = 0 -> get_recent_executions self limit = log)
  /\ (limit < 0 ->
      get_recent_executions self limit = drop (Z.to_nat (- limit)) log).
Proof.
  intros log. unfold get_recent_executions, py_slice_from. fold log.
  split; [ intros Hpos; split | split; [ intros -> | intros Hneg ] ].
  - destruct (Z.ltb_spec (- limit) 0) as [_ | Hge]; [ | lia ].
    f_equal. lia.
  - destruct (Z.ltb_spec (- limit) 0) as [_ | Hge]; [ | lia ].
    rewrite length_drop. lia.
  - change (- 0) with 0. change (0 <? 0) with false.
    rewrite Z.min_l by lia. reflexivity.
  - destruct (Z.ltb_spec (- limit) 0) as [Hlt | _]; [ lia | ].
    destruct (Z.le_ge_cases (- limit) (Z.of_nat (length log))) as [Hin | Hout].
    + f_equal. lia.
    + rewrite !drop_ge by lia. reflexivity.
Qed.

Ltac handler_cases H :=
  unfold executors in H;
  cbn [list_to_map foldr uncurry fst snd] in H;
  repeat (apply lookup_insert_Some in H as [[<- <-] | [_ H]];
          [ | ]);
  [ .. | rewrite lookup_empty in H; discriminate H ].

(** What a handler answers when it returns: [success], or [skipped] for the
    handler of the unknown kinds; never [failed]. *)
Lemma handler_status (kind : pyval) (h : handler) (w : World)
  (self : ActionExecutor) (action result : pydict) :
  table_get executors kind _execute_unknown = Return h ->
  (h w self action).2 = Return result ->
  lookup_key "status" result = Some (PStr "success")
  \/ lookup_key "status" result = Some (PStr "skipped").
Proof.
  intros Hh Hr.
  assert (h = _execute_unknown \/ exists s, executors !! s = Some h)
    as [-> | [s Hs]].
  { destruct kind; cbn [table_get] in Hh; try discriminate Hh;
      injection Hh as <-; try (left; reflexivity).
    destruct (executors !! s) eqn:E; cbn [default from_option id];
      [ right; exists s; exact E | left; reflexivity ]. }
  - injection Hr as <-. right. reflexivity.
  - handler_cases Hs; cbn in Hr;
      repeat
        match type of Hr with
        | context [py_join ?sep ?v] => destruct (py_join sep v)
        end;
      cbn in Hr; try discriminate Hr; injection Hr as <-; left; reflexivity.
Qed.

Lemma slice_last {A} (l : list A) (x : A) :
  py_slice_from (- 1) (l ++ [x]) = [x].
Proof.
  unfold py_slice_from. rewrite length_app. cbn [length].
  change (- 1 <? 0) with true. cbv iota.
  replace (Z.to_nat (Z.max 0 (- 1 + Z.of_nat (length l + 1))))
    with (length l) by lia.
  apply drop_app_length.
Qed.

(** X10. Whenever [execute] returns, the most recent entry of the log holds
    the action it was given and the result it returned, under the time of
    the log clock; the entry is marked [failed] exactly when the result is,
    and [success] otherwise, also for a [skipped] result. *)
Theorem execute_logs_what_it_returns (w : World) (self self' : ActionExecutor)
  (action result : pydict) :
  execute w self action = (self', Return result) ->
  exists entry,
    get_recent_executions self' 1 = [entry]
    /\ execution_log self' = (execution_log self ++ [entry])%list
    /\ Executor.action entry = action
    /\ Executor.result entry = result
    /\ timestamp entry = log_clock w
    /\ (status entry = "failed"
        <-> lookup_key "status" result = Some (PStr "failed"))
    /\ (status entry = "success"
        <-> lookup_key "status" result <> Some (PStr "failed")).
Proof.
  unfold execute. intros H.
  destruct (table_get executors (get action "type") _execute_unknown)
    as [h | e] eqn:E; [ | discriminate H ].
  pose proof (lookup_keeps_log _ _ E w self action) as Hlog.
  pose proof (fun r => handler_status (get action "type") h w self action r E)
    as Hst.
  destruct (h w self action) as [self1 [r | e]]; cbn [fst snd] in *;
    injection H as <- <-; eexists;
    (split; [ | split; [ cbn [_log_execution execution_log]; unfold list_append;
                          rewrite Hlog; reflexivity | ] ]).
  - unfold get_recent_executions.
    cbn [_log_execution execution_log]. unfold list_append.
    apply slice_last.
  - cbn. repeat split; try discriminate.
    + intros Hf. destruct (Hst r eq_refl) as [Hs | Hs]; congruence.
    + intros _. destruct (Hst r eq_refl) as [Hs | Hs]; congruence.
  - unfold get_recent_executions.
    cbn [_log_execution execution_log]. unfold list_append.
    apply slice_last.
  - cbn. repeat split; try discriminate; try reflexivity.
    intros Hn. exfalso. apply Hn. reflexivity.
Qed.

Lemma execute_logs_what_it_returns_witness :
  exists entry,
    get_recent_executions
      (execute
         {| handler_clock := "2024-01-15T10:00:00";
            log_clock := "2024-01-15T10:00:01";
            first_draw := 4711; second_draw := 1234 |}
         __init__ [("type", PStr "deploy")]).1 1
    = [entry]
    /\ execution_log
         (execute
            {| handler_clock := "2024-01-15T10:00:00";
               log_clock := "2024-01-15T10:00:01";
               first_draw := 4711; second_draw := 1234 |}
            __init__ [("type", PStr "deploy")]).1
       = (execution_log __init__ ++ [entry])%list
    /\ Executor.action entry = [("type", PStr "deploy")]
    /\ Executor.result entry
       = [("status", PStr "skipped");
          ("reason", PStr "Unknown action type: deploy")]
    /\ timestamp entry = "2024-01-15T10:00:01"
    /\ (status entry = "failed"
        <-> lookup_key "status"
              [("status", PStr "skipped");
               ("reason", PStr "Unknown action type: deploy")]
            = Some (PStr "failed"))
    /\ (status entry = "success"
        <-> lookup_key "status"
              [("status", PStr "skipped");
               ("reason", PStr "Unknown action type: deploy")]
            <> Some (PStr "failed")).
Proof.
  apply (execute_logs_what_it_returns
           {| handler_clock := "2024-01-15T10:00:00";
              log_clock := "2024-01-15T10:00:01";
              first_draw := 4711; second_draw := 1234 |}
           __init__).
  reflexivity.
Defined.

(** What a handler does to the two counters. *)
Lemma handler_counters (s : string) (h : handler) (w : World)
  (self : ActionExecutor) (action : pydict) :
  executors !! s = Some h ->
  task_counter (h w self action).1
  = task_counter self + (if String.eqb "create_task" s then 1 else 0)
  /\ notification_counter (h w self action).1
     = notification_counter self + (if String.eqb "notify" s then 1 else 0).
Proof.
  intros Hs. handler_cases Hs; cbn; split; lia.
Qed.

Lemma executors_create_task :
  executors !! "create_task" = Some _execute_create_task
  /\ executors !! "notify" = Some _execute_notify.
Proof. split; reflexivity. Qed.

Lemma execute_counters (w : World) (self : ActionExecutor) (action : pydict) :
  task_counter (execute w self action).1
  = task_counter self
    + (if is_str "create_task" (get action "type") then 1 else 0)
  /\ notification_counter (execute w self action).1
     = notification_counter self
       + (if is_str "notify" (get action "type") then 1 else 0).
Proof.
  unfold execute.
  destruct (get action "type") as [ | b | z | r | s | l | d ];
    cbn [table_get is_str]; try (cbn; split; lia).
  destruct (executors !! s) as [h |] eqn:E; cbn [default from_option id].
  - pose proof (handler_counters s h w self action E) as [Ht Hn].
    destruct (h w self action) as [self1 [r | e]]; cbn in Ht, Hn |- *;
      rewrite Ht, Hn; split; reflexivity.
  - destruct (String.eqb_spec "create_task" s) as [<- | _];
      [ destruct executors_create_task; congruence | ].
    destruct (String.eqb_spec "notify" s) as [<- | _];
      [ destruct executors_create_task; congruence | ].
    cbn. split; lia.
Qed.

(** X11. After any sequence of calls from a fresh executor, [tasks_created]
    is the number of calls whose action is of kind create_task and
    [notifications_sent] the number of those of kind notify: a call counts
    also when its handler raised and the result is [failed]. *)
Theorem counters_after_calls (calls : list (World * pydict)) :
  let stats := get_execution_stats (run __init__ calls).1 in
  tasks_created stats = calls_of_kind "create_task" calls
  /\ notifications_sent stats = calls_of_kind "notify" calls.
Proof.
  cbn zeta. unfold get_execution_stats. cbn [tasks_created notifications_sent].
  assert (forall self,
            task_counter (run self calls).1
            = task_counter self + calls_of_kind "create_task" calls
            /\ notification_counter (run self calls).1
               = notification_counter self + calls_of_kind "notify" calls)
    as Hgen.
  { induction calls as [| [w action] calls IH]; intros self.
    - unfold calls_of_kind. rewrite !filter_nil. cbn [run fst length].
      split; lia.
    - cbn [run]. specialize (IH (execute w self action).1).
      destruct (run (execute w self action).1 calls) as [self' outcomes].
      cbn [fst] in *. destruct IH as [-> ->].
      destruct (execute_counters w self action) as [-> ->].
      unfold calls_of_kind. rewrite !filter_cons. cbn [snd].
      destruct (is_str "create_task" (get action "type")),
        (is_str "notify" (get action "type"));
        repeat case_decide; try contradiction; try (exfalso; auto; fail);
        cbn [length]; split; lia. }
  destruct (Hgen __init__) as [-> ->]. cbn. split; reflexivity.
Qed.

(** A task counted although none was created. *)
Example counted_task_not_created (w : World) :
  let stats :=
    get_execution_stats
      (run __init__
         [(w, [("type", PStr "create_task"); ("labels", PInt 7)])]).1 in
  tasks_created stats = 1 /\ successful stats = 0 /\ failed stats = 1.
Proof. cbn. repeat split. Qed.

(** Reading the digits of a counter back. *)
Lemma digits_of_zero_prefix (s : string) :
  option_map Z.of_uint (NilEmpty.uint_of_string (String "0" s))
  = option_map Z.of_uint (NilEmpty.uint_of_string s).
Proof.
  cbn [NilEmpty.uint_of_string].
  destruct (NilEmpty.uint_of_string s); reflexivity.
Qed.

Lemma zeros_step (k : nat) :
  String.concat EmptyString (replicate (S k) "0")
  = String "0" (String.concat EmptyString (replicate k "0")).
Proof. destruct k; reflexivity. Qed.

Lemma digits_of_zfill (width : nat) (s : string) :
  option_map Z.of_uint (NilEmpty.uint_of_string (zfill width s))
  = option_map Z.of_uint (NilEmpty.uint_of_string s).
Proof.
  unfold zfill. induction (width - String.length s)%nat as [| k IH].
  - reflexivity.
  - rewrite zeros_step.
    change (String "0" (String.concat EmptyString (replicate k "0")) +:+ s)
      with (String "0" (String.concat EmptyString (replicate k "0") +:+ s)).
    rewrite digits_of_zero_prefix. exact IH.
Qed.

Lemma digits_of_str (n : Z) :
  0 <= n ->
  option_map Z.of_uint (NilEmpty.uint_of_string (str_of_Z n)) = Some n.
Proof.
  intros Hn. pose proof (DecimalZ.of_to n) as Hof.
  unfold str_of_Z. destruct (Z.to_int n) as [u | u] eqn:E.
  - cbn [Z.of_int] in Hof. cbn [NilZero.string_of_int].
    destruct u; cbn [NilZero.string_of_uint];
      try (rewrite NilEmpty.usu; cbn [option_map]; congruence).
    cbn in Hof |- *. congruence.
  - exfalso. destruct n; cbn in E; try discriminate E. lia.
Qed.

Lemma format_04d_digits (n : Z) :
  0 <= n ->
  option_map Z.of_uint (NilEmpty.uint_of_string (format_04d n)) = Some n.
Proof.
  intros Hn. unfold format_04d.
  destruct (Z.ltb_spec n 0) as [Hlt | _]; [ lia | ].
  rewrite digits_of_zfill. apply digits_of_str. exact Hn.
Qed.

(** Two counters that are not negative are written differently. *)
Lemma format_04d_inj (n m : Z) :
  0 <= n -> 0 <= m -> format_04d n = format_04d m -> n = m.
Proof.
  intros Hn Hm H. pose proof (format_04d_digits n Hn) as Dn.
  rewrite H, (format_04d_digits m Hm) in Dn. congruence.
Qed.

(** Only a task creation that succeeded answers a task id: the counter
    after the call, written out. *)
Lemma execute_task_id (w : World) (self : ActionExecutor) (action : pydict)
  (result : pydict) (t : pyval) :
  (execute w self action).2 = Return result ->
  lookup_key "task_id" result = Some t ->
  t = PStr ("TASK-" +:+ format_04d (task_counter self + 1))
  /\ task_counter (execute w self action).1 = task_counter self + 1.
Proof.
  unfold execute. intros Hr Ht.
  destruct (table_get executors (get action "type") _execute_unknown)
    as [h | e] eqn:E; [ | discriminate Hr ].
  assert (h = _execute_unknown \/ exists s, executors !! s = Some h)
    as [-> | [s Hs]].
  { destruct (get action "type"); cbn [table_get] in E; try discriminate E;
      injection E as <-; try (left; reflexivity).
    destruct (executors !! s) eqn:E'; cbn [default from_option id];
      [ right; exists s; exact E' | left; reflexivity ]. }
  - cbn in Hr. injection Hr as <-. discriminate Ht.
  - handler_cases Hs; cbn in Hr |- *;
      repeat
        match type of Hr with
        | context [py_join ?sep ?v] => destruct (py_join sep v)
        end;
      cbn in Hr |- *; injection Hr as <-; cbn in Ht; try discriminate Ht.
    injection Ht as <-. split; reflexivity.
Qed.

Lemma execute_counter_grows (w : World) (self : ActionExecutor)
  (action : pydict) :
  task_counter self <= task_counter (execute w self action).1.
Proof.
  destruct (execute_counters w self action) as [-> _].
  destruct (is_str "create_task" (get action "type")); lia.
Qed.

(** The task ids answered during a sequence of calls are written from
    counters that grow with the position of the call. *)
Lemma task_ids_numbered (calls : list (World * pydict)) :
  forall (self : ActionExecutor) (j : nat) (r : pydict) (t : pyval),
    run_results self calls !! j = Some (Return r) ->
    lookup_key "task_id" r = Some t ->
    exists c,
      task_counter self < c /\ t = PStr ("TASK-" +:+ format_04d c).
Proof.
  induction calls as [| [w action] calls IH]; intros self j r t Hj Ht.
  - discriminate Hj.
  - destruct j as [| j]; cbn in Hj.
    + injection Hj as Hj.
      destruct (execute_task_id w self action r t Hj Ht) as [-> _].
      exists (task_counter self + 1). split; [ lia | reflexivity ].
    + destruct (IH _ j r t Hj Ht) as (c & Hc & ->).
      pose proof (execute_counter_grows w self action).
      exists c. split; [ lia | reflexivity ].
Qed.

Lemma task_ids_ordered (calls : list (World * pydict)) :
  forall (self : ActionExecutor) (i j : nat) (ri rj : pydict) (ti tj : pyval),
    (i < j)%nat ->
    run_results self calls !! i = Some (Return ri) ->
    run_results self calls !! j = Some (Return rj) ->
    lookup_key "task_id" ri = Some ti ->
    lookup_key "task_id" rj = Some tj ->
    exists ci cj,
      task_counter self < ci < cj
      /\ ti = PStr ("TASK-" +:+ format_04d ci)
      /\ tj = PStr ("TASK-" +:+ format_04d cj).
Proof.
  induction calls as [| [w action] calls IH];
    intros self i j ri rj ti tj Hij Hi Hj Hti Htj.
  - discriminate Hi.
  - destruct j as [| j]; [ lia | ]. cbn in Hj.
    destruct i as [| i]; cbn in Hi.
    + injection Hi as Hi.
      destruct (execute_task_id w self action ri ti Hi Hti) as [-> Hc].
      destruct (task_ids_numbered calls _ j rj tj Hj Htj) as (cj & Hcj & ->).
      exists (task_counter self + 1), cj. split; [ lia | auto ].
    + destruct (IH _ i j ri rj ti tj ltac:(lia) Hi Hj Hti Htj)
        as (ci & cj & Hc & -> & ->).
      pose proof (execute_counter_grows w self action).
      exists ci, cj. split; [ lia | auto ].
Qed.

(** X12. In any sequence of calls on a fresh executor, two calls that
    answer a task id answer different ones. *)
Theorem task_ids_distinct (calls : list (World * pydict)) (i j : nat)
  (ri rj : pydict) (ti tj : pyval) :
  i <> j ->
  run_results __init__ calls !! i = Some (Return ri) ->
  run_results __init__ calls !! j = Some (Return rj) ->
  lookup_key "task_id" ri = Some ti ->
  lookup_key "task_id" rj = Some tj ->
  ti <> tj.
Proof.
  assert (forall i j ri rj ti tj,
            (i < j)%nat ->
            run_results __init__ calls !! i = Some (Return ri) ->
            run_results __init__ calls !! j = Some (Return rj) ->
            lookup_key "task_id" ri = Some ti ->
            lookup_key "task_id" rj = Some tj ->
            ti <> tj) as Hlt.
  { clear. intros i j ri rj ti tj Hij Hi Hj Hti Htj.
    destruct (task_ids_ordered calls __init__ i j ri rj ti tj Hij Hi Hj Hti Htj)
      as (ci & cj & Hc & -> & ->).
    cbn [task_counter __init__] in Hc. intros Heq.
    injection Heq as Heq. apply format_04d_inj in Heq; lia. }
  intros Hne Hi Hj Hti Htj.
  destruct (Nat.lt_total i j) as [Hij | [-> | Hji]].
  - eapply Hlt; eassumption.
  - contradiction.
  - intros Heq. symmetry in Heq. revert Heq. eapply Hlt; eassumption.
Qed.

Lemma task_ids_distinct_witness :
  PStr "TASK-0001" <> PStr "TASK-0002".
Proof.
  apply (task_ids_distinct
           [({| handler_clock := "t1"; log_clock := "t2";
                first_draw := 1000; second_draw := 1001 |},
             [("type", PStr "create_task"); ("title", PStr "First")]);
            ({| handler_clock := "t3"; log_clock := "t4";
                first_draw := 1002; second_draw := 1003 |},
             [("type", PStr "notify"); ("channel", PStr "general")]);
            ({| handler_clock := "t5"; log_clock := "t6";
                first_draw := 1004; second_draw := 1005 |},
             [("type", PStr "create_task"); ("title", PStr "Second")])]
           0%nat 2%nat
           [("status", PStr "success"); ("task_id", PStr "TASK-0001");
            ("title", PStr "First"); ("priority", PStr "medium");
            ("assignee", PStr "unassigned"); ("created_at", PStr "t1")]
           [("status", PStr "success"); ("task_id", PStr "TASK-0002");
            ("title", PStr "Second"); ("priority", PStr "medium");
            ("assignee", PStr "unassigned"); ("created_at", PStr "t5")]);
    [ lia | reflexivity | reflexivity | reflexivity | reflexivity ].
Defined.

End ExecutorLogProperties.

(** ** The executor and the standard output *)

Section StdoutProperties.

Import Executor.

Ltac handler_cases H :=
  cbn [list_to_map foldr uncurry fst snd] in H;
  repeat (apply lookup_insert_Some in H as [[<- <-] | [_ H]];
          [ | ]);
  [ .. | rewrite lookup_empty in H; discriminate H ].

Ltac unfold_handlers :=
  cbv beta delta [ExecutorStdout._execute_create_task
                  ExecutorStdout._execute_notify
                  ExecutorStdout._execute_escalate
                  ExecutorStdout._execute_schedule
                  ExecutorStdout._execute_monitor
                  ExecutorStdout._execute_block_deployment
                  ExecutorStdout._execute_aggregate
                  ExecutorStdout._execute_auto_fix
                  ExecutorStdout._execute_request_review
                  ExecutorStdout._execute_unknown
                  _execute_create_task _execute_notify _execute_escalate
                  _execute_schedule _execute_monitor
                  _execute_block_deployment _execute_aggregate
                  _execute_auto_fix _execute_request_review _execute_unknown
                  ExecutorStdout.py_print] zeta;
  cbn [fst snd].

(** Follows the prints of a handler in their order: at each one the line is
    refused, which ends the handler, or taken. *)
Ltac prints out :=
  unfold mbind, pyresult_bind;
  repeat
    (cbv beta iota;
     lazymatch goal with
     | |- match (match out ?l with _ => _ end) with _ => _ end = _ \/ _ =>
         let e := fresh "e" in
         let E := fresh "E" in
         destruct (out l) as [e |] eqn:E;
         [ right; exists l, e; split; [ exact E | reflexivity ] | ]
     | |- match py_join ?a ?b with _ => _ end = _ \/ _ =>
         destruct (py_join a b); [ | left; reflexivity ]
     | |- match (if truthy ?v then _ else _) with _ => _ end = _ \/ _ =>
         destruct (truthy v)
     end);
  left; reflexivity.

(** A handler with its prints changes the executor as the handler without
    them, and ends as it does unless a line was refused. *)
Lemma handlers_print (out : ExecutorStdout.stdout) (s : string) (h : handler) :
  executors !! s = Some h ->
  exists h',
    ExecutorStdout.executors out !! s = Some h'
    /\ forall w self action,
         (h' w self action).1 = (h w self action).1
         /\ ((h' w self action).2 = (h w self action).2
             \/ exists line e,
                  out line = Some e /\ (h' w self action).2 = Raise e).
Proof.
  intros H. unfold executors in H.
  handler_cases H; (eexists; split; [ reflexivity | ]);
    intros w self action; (split; [ reflexivity | ]);
    unfold_handlers; prints out.
Qed.

Lemma unknown_prints (out : ExecutorStdout.stdout) (w : World)
  (self : ActionExecutor) (action : pydict) :
  (ExecutorStdout._execute_unknown out w self action).1
  = (_execute_unknown w self action).1
  /\ ((ExecutorStdout._execute_unknown out w self action).2
      = (_execute_unknown w self action).2
      \/ exists line e,
           out line = Some e
           /\ (ExecutorStdout._execute_unknown out w self action).2 = Raise e).
Proof. split; [ reflexivity | ]. unfold_handlers. prints out. Qed.

(** The two handler tables have the same keys. *)
Lemma executors_same_keys (out : ExecutorStdout.stdout) (s : string) :
  executors !! s = None -> ExecutorStdout.executors out !! s = None.
Proof.
  intros E. unfold ExecutorStdout.executors.
  cbn [list_to_map foldr uncurry fst snd].
  repeat (rewrite lookup_insert_ne;
          [ | intros <-; vm_compute in E; discriminate E ]).
  apply lookup_empty.
Qed.

(** The handler [execute] looks up, with and without the prints. *)
Lemma lookup_prints (out : ExecutorStdout.stdout) (kind : pyval) :
  match table_get executors kind _execute_unknown with
  | Raise e =>
      table_get (ExecutorStdout.executors out) kind
        (ExecutorStdout._execute_unknown out)
      = Raise e
  | Return h =>
      exists h',
        table_get (ExecutorStdout.executors out) kind
          (ExecutorStdout._execute_unknown out)
        = Return h'
        /\ forall w self action,
             (h' w self action).1 = (h w self action).1
             /\ ((h' w self action).2 = (h w self action).2
                 \/ exists line e,
                      out line = Some e /\ (h' w self action).2 = Raise e)
  end.
Proof.
  destruct kind as [ | b | z | r | s | l | d ]; cbn [table_get];
    try reflexivity;
    try (eexists; split; [ reflexivity | apply unknown_prints ]).
  destruct (executors !! s) as [h |] eqn:E; cbn [default from_option id].
  - destruct (handlers_print out s h E) as (h' & Hx & Hh').
    exists h'. split; [ | exact Hh' ].
    unfold handler in *. rewrite Hx. reflexivity.
  - rewrite (executors_same_keys out s E). cbn [default from_option id].
    eexists; split; [ reflexivity | apply unknown_prints ].
Qed.

(** [execute] with the prints answers as without them, unless a line was
    refused: then it answers [failed] with the text of that error. The
    counters are the same either way. *)
Lemma execute_prints (out : ExecutorStdout.stdout) (w : World)
  (self : ActionExecutor) (action : pydict) :
  let after := ExecutorStdout.execute out w self action in
  task_counter after.1 = task_counter (execute w self action).1
  /\ notification_counter after.1
     = notification_counter (execute w self action).1
  /\ (after = execute w self action
      \/ exists line e,
           out line = Some e
           /\ after.2 = Return (failed_with e)
           /\ exists entry,
                execution_log after.1
                = (execution_log self ++ [entry])%list
                /\ status entry = "failed").
Proof.
  cbn zeta. unfold ExecutorStdout.execute, execute.
  pose proof (lookup_prints out (get action "type")) as H.
  pose proof (lookup_keeps_log (get action "type")) as Hlog.
  destruct (table_get executors (get action "type") _execute_unknown)
    as [h | e].
  - destruct H as (h' & -> & Hh').
    destruct (Hh' w self action) as [Hst Hres].
    specialize (Hlog h eq_refl w self action).
    destruct (h' w self action) as [self1 outcome1].
    destruct (h w self action) as [self2 outcome2].
    cbn [fst snd] in Hst, Hres, Hlog. subst self2.
    destruct Hres as [-> | (line & e & Hout & ->)].
    + destruct outcome2; cbn; repeat split; left; reflexivity.
    + destruct outcome2; cbn [fst snd _log_execution task_counter
                                notification_counter execution_log];
        (split; [ reflexivity | ]); (split; [ reflexivity | ]);
        right; exists line, e; (split; [ exact Hout | ]);
        (split; [ reflexivity | ]); eexists; unfold list_append;
        rewrite Hlog; split; reflexivity.
  - rewrite H. repeat split. left. reflexivity.
Qed.

(** On a standard output that takes every line, [execute] with the prints
    is [execute] without them. *)
Lemma execute_quiet (out : ExecutorStdout.stdout) (w : World)
  (self : ActionExecutor) (action : pydict) :
  (forall line, out line = None) ->
  ExecutorStdout.execute out w self action = execute w self action.
Proof.
  intros Hall.
  destruct (execute_prints out w self action)
    as (_ & _ & [H | (line & e & Hout & _)]); [ exact H | ].
  rewrite Hall in Hout. discriminate Hout.
Qed.

Ltac first_print out Hn :=
  unfold mbind, pyresult_bind;
  lazymatch goal with
  | |- exists _, match (match out ?l with _ => _ end) with _ => _ end = _ =>
      let e := fresh "e" in
      let He := fresh "He" in
      destruct (Hn l) as [e He]; [ reflexivity | ];
      rewrite He; exists e; reflexivity
  end.

(** Every handler starts with a line that opens with a pictograph. *)
Lemma first_line_refused (out : ExecutorStdout.stdout) (kind : pyval)
  (h' : handler) :
  narrow out ->
  table_get (ExecutorStdout.executors out) kind
    (ExecutorStdout._execute_unknown out)
  = Return h' ->
  forall w self action, exists e, (h' w self action).2 = Raise e.
Proof.
  intros Hn H.
  assert (h' = ExecutorStdout._execute_unknown out
          \/ exists s, ExecutorStdout.executors out !! s = Some h')
    as [-> | [s Hs]].
  { destruct kind; cbn [table_get] in H; try discriminate H;
      injection H as <-; try (left; reflexivity).
    destruct (ExecutorStdout.executors out !! s) eqn:E;
      cbn [default from_option id];
      [ right; exists s; exact E | left; reflexivity ]. }
  - intros w self action. unfold_handlers. first_print out Hn.
  - unfold ExecutorStdout.executors in Hs.
    handler_cases Hs; intros w self action; unfold_handlers;
      first_print out Hn.
Qed.

(** X27. On a standard output whose encoding has no bytes for the
    pictographs (latin-1, ascii), [execute] answers [failed] to every action
    it can look a handler up for, of a known kind or not, and logs it as
    failed; a create_task and a notify action still advance their counter,
    so [tasks_created] counts tasks that were not created. *)
Theorem narrow_stdout_fails (out : ExecutorStdout.stdout) (w : World)
  (self : ActionExecutor) (action : pydict) :
  narrow out ->
  hashable (get action "type") = true ->
  let after := ExecutorStdout.execute out w self action in
  (exists e, after.2 = Return (failed_with e))
  /\ (exists entry,
        execution_log after.1 = (execution_log self ++ [entry])%list
        /\ Executor.action entry = action
        /\ status entry = "failed")
  /\ task_counter after.1
     = task_counter self
       + (if is_str "create_task" (get action "type") then 1 else 0)
  /\ notification_counter after.1
     = notification_counter self
       + (if is_str "notify" (get action "type") then 1 else 0).
Proof.
  intros Hn Hh after.
  destruct (execute_prints out w self action) as (Ht & Hc & _).
  destruct (execute_counters w self action) as [Ht' Hc'].
  fold after in Ht, Hc. rewrite Ht' in Ht. rewrite Hc' in Hc.
  split; [ | split; [ | split; [ exact Ht | exact Hc ] ] ];
    subst after; unfold ExecutorStdout.execute;
    pose proof (lookup_prints out (get action "type")) as Hl;
    pose proof (lookup_keeps_log (get action "type")) as Hlog;
    (destruct (table_get executors (get action "type") _execute_unknown)
       as [h | e0];
     [ | destruct (get action "type"); discriminate ]);
    destruct Hl as (h' & Hl & Hrel);
    pose proof (first_line_refused out _ h' Hn Hl w self action) as [e He];
    destruct (Hrel w self action) as [Hst _];
    specialize (Hlog h eq_refl w self action);
    rewrite Hl; destruct (h' w self action) as [self1 outcome];
    cbn [fst snd] in He, Hst; subst outcome.
  - exists e. reflexivity.
  - eexists. cbn [fst _log_execution execution_log]. unfold list_append.
    rewrite Hst, Hlog. repeat split.
Qed.

Lemma latin1_narrow : narrow latin1.
Proof.
  intros line H. unfold latin1. rewrite H. eexists. reflexivity.
Qed.

Lemma narrow_stdout_fails_witness :
  let after :=
    ExecutorStdout.execute latin1
      {| handler_clock := "t1"; log_clock := "t2";
         first_draw := 4711; second_draw := 1234 |}
      __init__
      [("type", PStr "create_task"); ("title", PStr "Fix login")] in
  (exists e, after.2 = Return (failed_with e))
  /\ (exists entry,
        execution_log after.1 = (execution_log __init__ ++ [entry])%list
        /\ Executor.action entry
           = [("type", PStr "create_task"); ("title", PStr "Fix login")]
        /\ status entry = "failed")
  /\ task_counter after.1
     = task_counter __init__
       + (if is_str "create_task"
               (get [("type", PStr "create_task"); ("title", PStr "Fix login")]
                  "type")
          then 1 else 0)
  /\ notification_counter after.1
     = notification_counter __init__
       + (if is_str "notify"
               (get [("type", PStr "create_task"); ("title", PStr "Fix login")]
                  "type")
          then 1 else 0).
Proof.
  apply (narrow_stdout_fails latin1
           {| handler_clock := "t1"; log_clock := "t2";
              first_draw := 4711; second_draw := 1234 |}
           __init__
           [("type", PStr "create_task"); ("title", PStr "Fix login")]).
  - exact latin1_narrow.
  - reflexivity.
Defined.

(** The task of the example is counted and not created. *)
Example counted_and_failed :
  let after :=
    ExecutorStdout.execute latin1
      {| handler_clock := "t1"; log_clock := "t2";
         first_draw := 4711; second_draw := 1234 |}
      __init__
      [("type", PStr "create_task"); ("title", PStr "Fix login")] in
  lookup_key "status" <$> after.2 = Return (Some (PStr "failed"))
  /\ tasks_created (get_execution_stats after.1) = 1
  /\ failed (get_execution_stats after.1) = 1.
Proof. vm_compute. repeat split. Qed.

End StdoutProperties.

(** ** The validator *)

Section ValidatorProperties.

Import ExecutionValidator.

Lemma length_append (a b : string) :
  String.length (a +:+ b) = (String.length a + String.length b)%nat.
Proof. induction a as [| c a IH]; simpl; [ | rewrite IH ]; reflexivity. Qed.

Lemma length_take_str (n : nat) (s : string) :
  String.length (take_str n s) = Nat.min n (String.length s).
Proof.
  unfold take_str. revert s. induction n as [| n IH]; intros [| c s]; simpl;
    try reflexivity.
  rewrite IH. reflexivity.
Qed.

Lemma take_str_append (a b : string) :
  take_str (String.length a) (a +:+ b) = a.
Proof.
  unfold take_str. induction a as [| c a IH]; simpl.
  - destruct b; reflexivity.
  - rewrite IH. reflexivity.
Qed.

(** A value that went through the loop is not changed by it again. *)
Lemma sanitize_value_idempotent (value : pyval) :
  sanitize_value (sanitize_value value) = sanitize_value value.
Proof.
  destruct value as [ | | | | s | | ]; try reflexivity.
  assert (sanitize_value (PStr s)
          = if (1000 <? String.length s)%nat
            then PStr (take_str 1000 s +:+ "... (truncated)")
            else PStr s) as -> by reflexivity.
  destruct (Nat.ltb_spec 1000 (String.length s)) as [Hlong | Hshort].
  - assert (String.length (take_str 1000 s) = 1000%nat) as Hlen
        by (rewrite length_take_str; lia).
    cbn [sanitize_value].
    destruct (Nat.ltb_spec 1000
                (String.length (take_str 1000 s +:+ "... (truncated)")))
      as [_ | Hno].
    + rewrite <- Hlen at 1. rewrite take_str_append. reflexivity.
    + rewrite length_append, Hlen in Hno. simpl in Hno. lia.
  - cbn [sanitize_value].
    destruct (Nat.ltb_spec 1000 (String.length s)); [ lia | reflexivity ].
Qed.

(** X13. Sanitizing is idempotent: a sanitized action is left as it is by
    a second pass, the mark of a cut string is not cut again. *)
Theorem sanitize_idempotent (action : pydict) :
  sanitize (sanitize action) = sanitize action.
Proof.
  unfold sanitize. rewrite map_map. apply map_ext. intros [k v]. cbn [fst snd].
  rewrite sanitize_value_idempotent. reflexivity.
Qed.

Lemma lookup_key_sanitize (k : string) (action : pydict) :
  lookup_key k (sanitize action) = sanitize_value <$> lookup_key k action.
Proof.
  unfold sanitize. induction action as [| [k' v] action IH]; cbn.
  - reflexivity.
  - destruct (String.eqb k k'); [ reflexivity | exact IH ].
Qed.

(** A string is its first characters followed by the rest. *)
Lemma take_str_split (n : nat) (s : string) :
  exists cut, s = take_str n s +:+ cut.
Proof.
  unfold take_str. revert s. induction n as [| n IH]; intros [| c s]; simpl.
  - exists EmptyString. reflexivity.
  - exists (String c s). reflexivity.
  - exists EmptyString. reflexivity.
  - destruct (IH s) as [cut Hcut]. exists cut.
    change (String c s = String c (substring 0 n s +:+ cut)).
    f_equal. exact Hcut.
Qed.

(** X14. What sanitizing keeps and what it changes: the keys stay, in
    their order; every value that is not a string stays as it is (None, a
    truth value, a number, and also a list or a dict that holds long
    strings), and so does a string of at most 1000 characters; a longer
    string becomes its first 1000 characters followed by the mark; every
    string value of the result has at most 1015 characters. *)
Theorem sanitize_spec (action : pydict) :
  map fst (sanitize action) = map fst action
  /\ (forall k v,
        lookup_key k action = Some v ->
        (forall s, v <> PStr s) ->
        lookup_key k (sanitize action) = Some v)
  /\ (forall k s,
        lookup_key k action = Some (PStr s) ->
        (String.length s <= 1000)%nat ->
        lookup_key k (sanitize action) = Some (PStr s))
  /\ (forall k s,
        lookup_key k action = Some (PStr s) ->
        (1000 < String.length s)%nat ->
        exists kept cut,
          s = kept +:+ cut
          /\ String.length kept = 1000%nat
          /\ lookup_key k (sanitize action)
             = Some (PStr (kept +:+ "... (truncated)")))
  /\ (forall k s,
        lookup_key k (sanitize action) = Some (PStr s) ->
        (String.length s <= 1015)%nat).
Proof.
  split; [ | split; [ | split; [ | split ] ] ].
  - unfold sanitize. rewrite map_map. apply map_ext. intros [k v]. reflexivity.
  - intros k v Hk Hv. rewrite lookup_key_sanitize, Hk.
    cbn [fmap option_fmap option_map]. f_equal.
    destruct v as [ | | | | s | | ]; try reflexivity.
    exfalso. apply (Hv s). reflexivity.
  - intros k s Hk Hs. rewrite lookup_key_sanitize, Hk.
    cbn [fmap option_fmap option_map sanitize_value].
    destruct (Nat.ltb_spec 1000 (String.length s)); [ lia | reflexivity ].
  - intros k s Hk Hs. rewrite lookup_key_sanitize, Hk.
    cbn [fmap option_fmap option_map sanitize_value].
    destruct (Nat.ltb_spec 1000 (String.length s)); [ | lia ].
    destruct (take_str_split 1000 s) as [cut Hcut].
    exists (take_str 1000 s), cut.
    split; [ exact Hcut | ]. split; [ | reflexivity ].
    rewrite length_take_str. lia.
  - intros k s. rewrite lookup_key_sanitize.
    destruct (lookup_key k action) as [v |]; [ | discriminate ].
    cbn [fmap option_fmap option_map]. intros Hv. injection Hv as Hv.
    destruct v as [ | | | | s0 | | ]; try discriminate Hv.
    unfold sanitize_value in Hv.
    destruct (Nat.ltb_spec 1000 (String.length s0)) as [Hlong | Hshort];
      injection Hv as <-.
    + rewrite length_append, length_take_str. simpl String.length. lia.
    + lia.
Qed.

Lemma has_key_sanitize (k : string) (action : pydict) :
  has_key (sanitize action) k = has_key action k.
Proof.
  unfold has_key. rewrite lookup_key_sanitize.
  destruct (lookup_key k action); reflexivity.
Qed.

(** A string that the loop cuts, or has cut, is none of the short names the
    validator compares the type with. *)
Lemma is_str_sanitize (name : string) (value : pyval) :
  (String.length name <= 1000)%nat ->
  is_str name (sanitize_value value) = is_str name value.
Proof.
  intros Hname. destruct value as [ | | | | s | | ]; try reflexivity.
  unfold sanitize_value.
  destruct (Nat.ltb_spec 1000 (String.length s)) as [Hlong | Hshort];
    [ | reflexivity ].
  cbn [is_str].
  destruct (String.eqb_spec name s) as [-> | _]; [ lia | ].
  destruct (String.eqb_spec name (take_str 1000 s +:+ "... (truncated)"))
    as [-> | _]; [ | reflexivity ].
  rewrite length_append, length_take_str in Hname. simpl String.length in Hname.
  lia.
Qed.

(** X15. Sanitizing does not change the verdict of the validator. *)
Theorem validate_sanitize (action : pydict) :
  validate (sanitize action) = validate action.
Proof.
  unfold validate. cbn [forallb]. rewrite !has_key_sanitize.
  unfold get. rewrite lookup_key_sanitize.
  destruct (lookup_key "type" action) as [v |]; [ | reflexivity ].
  cbn [fmap option_fmap option_map default from_option id].
  rewrite !is_str_sanitize by (simpl; lia). reflexivity.
Qed.

End ValidatorProperties.

(** ** The observer *)

Section ObserverProperties.

Import WorkflowObserver.

(** X16. [classify_event] raises exactly when the event type of the raw
    event is a list or a dict. Otherwise the classified event passes
    [validate_event], also when the raw event has no timestamp or no data,
    and its type is one of the ten known types or ['unknown']. *)
Theorem classify_event_spec (raw_event : pydict) :
  let given := get_or raw_event "event_type" (PStr "unknown") in
  (hashable given = false ->
   classify_event raw_event = Raise (unhashable given))
  /\ (hashable given = true ->
      exists enriched s,
        classify_event raw_event = Return enriched
        /\ validate_event enriched = true
        /\ get enriched "event_type" = PStr s
        /\ (s ∈ event_types \/ s = "unknown")
        /\ (given = PStr s \/ s = "unknown")).
Proof.
  intros given. unfold classify_event. fold given. split; intros H.
  - destruct given; try discriminate H; reflexivity.
  - destruct given as [ | b | z | r | s | l | d ]; try discriminate H;
      cbn [set_in mbind pyresult_bind].
    1-4: eexists; exists "unknown"; repeat split; auto.
    destruct (bool_decide (s ∈ event_types)) eqn:E.
    + apply bool_decide_eq_true in E.
      eexists. exists s. repeat split; auto.
    + eexists. exists "unknown". repeat split; auto.
Qed.

(** X17. Classifying is idempotent: a classified event is classified as
    itself. *)
Theorem classify_event_idempotent (raw_event enriched : pydict) :
  classify_event raw_event = Return enriched ->
  classify_event enriched = Return enriched.
Proof.
  unfold classify_event at 1. intros H.
  assert (exists s,
            (bool_decide (s ∈ event_types) = true \/ s = "unknown")
            /\ enriched = [
                 ("event_type", PStr s);
                 ("timestamp", get raw_event "timestamp");
                 ("data", get_or raw_event "data" (PStr "{}"));
                 ("source", get_or raw_event "source" (PStr "system"));
                 ("metadata",
                   PDict [("processed", PBool true);
                          ("classifier_version", PStr "1.0")])
               ]) as (s & Hs & ->).
  { destruct (get_or raw_event "event_type" (PStr "unknown"))
      as [ | b | z | r | s | l | d ];
      cbn [set_in mbind pyresult_bind] in H; try discriminate H;
      try (injection H as <-; exists "unknown"; split; auto; fail).
    destruct (bool_decide (s ∈ event_types)) eqn:E; injection H as <-.
    - exists s. auto.
    - exists "unknown". auto. }
  unfold classify_event.
  change (get_or _ "event_type" (PStr "unknown")) with (PStr s).
  cbn [set_in mbind pyresult_bind].
  destruct Hs as [-> | ->]; [ reflexivity | ].
  destruct (bool_decide _); reflexivity.
Qed.

Lemma classify_event_idempotent_witness :
  classify_event
    [("event_type", PStr "unknown");
     ("timestamp", PNone);
     ("data", PStr "{}");
     ("source", PStr "system");
     ("metadata",
       PDict [("processed", PBool true); ("classifier_version", PStr "1.0")])]
  = Return
      [("event_type", PStr "unknown");
       ("timestamp", PNone);
       ("data", PStr "{}");
       ("source", PStr "system");
       ("metadata",
         PDict [("processed", PBool true);
                ("classifier_version", PStr "1.0")])].
Proof.
  apply (classify_event_idempotent [("event_type", PStr "merge_request")]).
  vm_compute. reflexivity.
Defined.

End ObserverProperties.

(** ** The retrieval helpers of the memory *)

Section RetrievalProperties.

Import MemoryRetrieval.

(** X18. [extract_context] answers ['First occurrence'] exactly when the
    memory state has no maximum priority and no event count above 1; so a
    first event whose state holds a maximum priority is not called a first
    occurrence. The answer is never empty. *)
Theorem extract_context_first_occurrence (memory_state : gmap string Z) :
  (extract_context memory_state = "First occurrence"
   <-> memory_state !! "max_priority" = None
       /\ forall n, memory_state !! "event_count" = Some n -> n <= 1)
  /\ extract_context memory_state <> EmptyString.
Proof.
  unfold extract_context, list_append.
  destruct (memory_state !! "event_count") as [n |];
    destruct (memory_state !! "max_priority") as [m |];
    try destruct (Z.ltb_spec 1 n) as [Hn | Hn];
    cbn [app join]; (split; [ split | ]);
    try (intros H; simpl in H; discriminate H);
    try (intros [H _]; discriminate H).
  - intros [_ H]. specialize (H n eq_refl). lia.
  - intros _. split; [ reflexivity | ]. intros n' [= <-]. exact Hn.
  - intros _. reflexivity.
  - intros _. split; [ reflexivity | ]. intros n' H. discriminate H.
  - intros _. reflexivity.
Qed.

End RetrievalProperties.

(** ** From the planner to the executor *)

Section PlanExecution.

Import Planner Executor ExecutionValidator AgentSimplePipeline.

Lemma elem_append_if (b : bool) (acts : list Action) (a x : Action) :
  x ∈ (if b then list_append acts a else acts) -> x ∈ acts \/ x = a.
Proof.
  destruct b; [ | auto ]. unfold list_append. rewrite elem_of_app.
  intros [H | H]; [ auto | ]. apply list_elem_of_singleton in H. auto.
Qed.

(** Every action of a plan is one of nine shapes. *)
Lemma plan_actions_from (event_type : string) (event_data : pydict)
  (priority : Z) (context : gmap string Z) (acts : list Action) (a : Action) :
  plan event_type event_data priority context = Return acts ->
  a ∈ acts ->
  a ∈ planned_shapes event_type event_data priority (event_count_of context).
Proof.
  unfold plan, planned_shapes. fold (event_count_of context).
  destruct (action_rules !! event_type) as [rules |].
  - destruct (priority <? priority_threshold rules).
    + intros [= <-] H. apply elem_of_nil in H. contradiction.
    + destruct (_can_auto_fix event_type event_data (event_count_of context))
        as [fixable | e]; cbn [mbind pyresult_bind]; [ | discriminate ].
      intros [= <-] H. cbv zeta in H.
      repeat (apply elem_append_if in H as [H | ->];
              [ | apply elem_of_app; left; found ]).
      apply elem_of_nil in H. contradiction.
  - intros [= <-] H. apply elem_of_app. right. exact H.
Qed.

(** X19. Every action of a returned plan, turned into the dict the executor
    takes, keeps its type and its severity, passes the validator, and is of
    one of the nine kinds the executor has a handler for. *)
Theorem planned_actions_validate (event_type : string) (event_data : pydict)
  (priority : Z) (context : gmap string Z) (acts : list Action) (a : Action) :
  plan event_type event_data priority context = Return acts ->
  a ∈ acts ->
  get (action_dict a) "type" = PStr (value (type a))
  /\ get (action_dict a) "priority" = PStr (Planner.priority a)
  /\ validate (action_dict a) = true
  /\ value (type a) ∈ known_kinds.
Proof.
  intros Hp Ha. apply (plan_actions_from _ _ _ _ _ _ Hp) in Ha.
  unfold planned_shapes, _default_plan in Ha. cbn [app] in Ha.
  repeat (apply elem_of_cons in Ha as [-> | Ha];
          [ repeat split; unfold known_kinds; cbn [map value]; found | ]).
  apply elem_of_nil in Ha. contradiction.
Qed.

Lemma planned_actions_validate_witness :
  get (action_dict (_plan_escalation "error" [("message", PStr "Out of memory error")] 3))
    "type"
  = PStr (value (type (_plan_escalation "error" [("message", PStr "Out of memory error")] 3)))
  /\ get (action_dict (_plan_escalation "error" [("message", PStr "Out of memory error")] 3))
       "priority"
     = PStr (Planner.priority
               (_plan_escalation "error" [("message", PStr "Out of memory error")] 3))
  /\ validate
       (action_dict (_plan_escalation "error" [("message", PStr "Out of memory error")] 3))
     = true
  /\ value (type (_plan_escalation "error" [("message", PStr "Out of memory error")] 3))
     ∈ known_kinds.
Proof.
  apply (planned_actions_validate "error"
           [("message", PStr "Out of memory error")] 10
           {[ "event_count" := 3 ]}
           [_plan_task_creation "error"
              [("message", PStr "Out of memory error")] 10;
            _plan_notification "error"
              [("message", PStr "Out of memory error")] 10;
            _plan_escalation "error"
              [("message", PStr "Out of memory error")] 3]).
  - vm_compute. reflexivity.
  - found.
Defined.

(** What the handlers themselves do with an action of a returned plan, the
    prints set aside: they return, but for a deployment block whose payload
    holds affected services that cannot be joined (not a list of
    strings). *)
Lemma planned_actions_quiet (event_type : string) (event_data : pydict)
  (priority : Z) (context : gmap string Z) (acts : list Action) (a : Action)
  (w : World) (self : ActionExecutor) :
  plan event_type event_data priority context = Return acts ->
  a ∈ acts ->
  exists result,
    (execute w self (action_dict a)).2 = Return result
    /\ (type a <> BLOCK_DEPLOYMENT
        \/ joinable (get_or event_data "affected_services" (PList [])) ->
        lookup_key "status" result = Some (PStr "success"))
    /\ (type a = BLOCK_DEPLOYMENT
        /\ ~ joinable (get_or event_data "affected_services" (PList [])) ->
        lookup_key "status" result = Some (PStr "failed")).
Proof.
  intros Hp Ha. apply (plan_actions_from _ _ _ _ _ _ Hp) in Ha.
  unfold planned_shapes, _default_plan in Ha. cbn [app] in Ha.
  repeat (apply elem_of_cons in Ha as [-> | Ha];
          [ try (eexists; split; [ reflexivity | ];
                 split; [ reflexivity | intros [Hb _]; discriminate Hb ]) | ]).
  - unfold joinable, execute.
    change (get (action_dict (_plan_deployment_block event_type event_data))
              "type")
      with (PStr "block_deployment").
    change (table_get executors (PStr "block_deployment") _execute_unknown)
      with (Return _execute_block_deployment).
    cbv beta iota. unfold _execute_block_deployment.
    change (get_or (action_dict (_plan_deployment_block event_type event_data))
              "affected_services" (PList []))
      with (get_or event_data "affected_services" (PList [])).
    destruct (py_join ", " (get_or event_data "affected_services" (PList [])))
      as [text | e] eqn:E; cbn [mbind pyresult_bind snd].
    + eexists. split; [ reflexivity | ]. split; [ reflexivity | ].
      intros [_ Hn]. exfalso. apply Hn. exists text. reflexivity.
    + eexists. split; [ reflexivity | ]. split; [ | reflexivity ].
      intros [Hb | [text Ht]]; [ exfalso; apply Hb; reflexivity | discriminate Ht ].
  - apply elem_of_nil in Ha. contradiction.
Qed.

(** X20. Executing an action of a returned plan never raises and never
    answers [skipped]. A deployment block whose payload holds affected
    services that cannot be joined (not a list of strings) is answered
    [failed]. Any other planned action is answered [success], or else
    [failed] with the text of an error the standard output raises on a
    line; so it is answered [success] on a standard output that takes every
    line. *)
Theorem planned_actions_execute (event_type : string) (event_data : pydict)
  (priority : Z) (context : gmap string Z) (acts : list Action) (a : Action)
  (out : ExecutorStdout.stdout) (w : World) (self : ActionExecutor) :
  plan event_type event_data priority context = Return acts ->
  a ∈ acts ->
  exists result,
    (ExecutorStdout.execute out w self (action_dict a)).2 = Return result
    /\ (type a = BLOCK_DEPLOYMENT
        /\ ~ joinable (get_or event_data "affected_services" (PList [])) ->
        lookup_key "status" result = Some (PStr "failed"))
    /\ (type a <> BLOCK_DEPLOYMENT
        \/ joinable (get_or event_data "affected_services" (PList [])) ->
        lookup_key "status" result = Some (PStr "success")
        \/ refused out result).
Proof.
  intros Hp Ha.
  destruct (planned_actions_quiet _ _ _ _ _ _ w self Hp Ha)
    as (result & Hres & Hok & Hbad).
  destruct (execute_prints out w self (action_dict a))
    as (_ & _ & [Heq | (line & e & Hout & Hfailed & _)]).
  - exists result. rewrite Heq. split; [ exact Hres | ].
    split; [ exact Hbad | ]. intros H. left. exact (Hok H).
  - exists (failed_with e). split; [ exact Hfailed | ].
    split; [ reflexivity | ]. intros _. right. exists line, e.
    split; [ exact Hout | reflexivity ].
Qed.

Lemma planned_actions_execute_witness :
  exists result,
    (ExecutorStdout.execute latin1
       {| handler_clock := "t1"; log_clock := "t2";
          first_draw := 4711; second_draw := 1234 |}
       __init__
       (action_dict
          (_plan_escalation "security_alert"
             [("alert_type", PStr "exposed_secret");
              ("affected_services", PInt 2)] 1))).2
    = Return result
    /\ (type (_plan_escalation "security_alert"
                [("alert_type", PStr "exposed_secret");
                 ("affected_services", PInt 2)] 1)
        = BLOCK_DEPLOYMENT
        /\ ~ joinable
               (get_or [("alert_type", PStr "exposed_secret");
                        ("affected_services", PInt 2)]
                  "affected_services" (PList [])) ->
        lookup_key "status" result = Some (PStr "failed"))
    /\ (type (_plan_escalation "security_alert"
                [("alert_type", PStr "exposed_secret");
                 ("affected_services", PInt 2)] 1)
        <> BLOCK_DEPLOYMENT
        \/ joinable
             (get_or [("alert_type", PStr "exposed_secret");
                      ("affected_services", PInt 2)]
                "affected_services" (PList [])) ->
        lookup_key "status" result = Some (PStr "success")
        \/ refused latin1 result).
Proof.
  apply (planned_actions_execute "security_alert"
           [("alert_type", PStr "exposed_secret");
            ("affected_services", PInt 2)] 10
           {[ "event_count" := 1 ]}
           [_plan_task_creation "security_alert"
              [("alert_type", PStr "exposed_secret");
               ("affected_services", PInt 2)] 10;
            _plan_notification "security_alert"
              [("alert_type", PStr "exposed_secret");
               ("affected_services", PInt 2)] 10;
            _plan_deployment_block "security_alert"
              [("alert_type", PStr "exposed_secret");
               ("affected_services", PInt 2)];
            _plan_escalation "security_alert"
              [("alert_type", PStr "exposed_secret");
               ("affected_services", PInt 2)] 1]).
  - vm_compute. reflexivity.
  - found.
Defined.

(** The two answers of the statement, on the plan of the example: on a
    standard output that takes every line the escalation is answered
    [success] and the deployment block [failed]; on one that has no bytes
    for the pictographs both are answered [failed]. *)
Example planned_actions_answers :
  let event_data :=
    [("alert_type", PStr "exposed_secret"); ("affected_services", PInt 2)] in
  let w :=
    {| handler_clock := "t1"; log_clock := "t2";
       first_draw := 4711; second_draw := 1234 |} in
  let answer out a :=
    lookup_key "status"
      <$> (ExecutorStdout.execute out w __init__ (action_dict a)).2 in
  answer (fun _ => None) (_plan_escalation "security_alert" event_data 1)
  = Return (Some (PStr "success"))
  /\ answer (fun _ => None) (_plan_deployment_block "security_alert" event_data)
     = Return (Some (PStr "failed"))
  /\ answer latin1 (_plan_escalation "security_alert" event_data 1)
     = Return (Some (PStr "failed"))
  /\ answer latin1 (_plan_deployment_block "security_alert" event_data)
     = Return (Some (PStr "failed")).
Proof. vm_compute. repeat split. Qed.

Lemma planned_action_dispatchable (event_type : string) (event_data : pydict)
  (priority : Z) (context : gmap string Z) (acts : list Action) (a : Action) :
  plan event_type event_data priority context = Return acts ->
  a ∈ acts ->
  hashable (get (action_dict a) "type") = true
  /\ validate (action_dict a) = true.
Proof.
  intros Hp Ha.
  apply (plan_actions_from _ _ _ _ _ _ Hp) in Ha.
  unfold planned_shapes, _default_plan in Ha. cbn [app] in Ha.
  repeat (apply elem_of_cons in Ha as [-> | Ha]; [ split; reflexivity | ]).
  apply elem_of_nil in Ha. contradiction.
Qed.

End PlanExecution.

(** ** Executing a plan, in agent_simple.py *)

Section SimplePipelineProperties.

Import Planner Executor AgentSimplePipeline.

(** A call on an item the executor can dispatch returns and adds one entry
    to the log. *)
Lemma executor_execute_dispatchable (w : World) (self : ActionExecutor)
  (item : pyval) :
  dispatchable item ->
  exists self' result,
    executor_execute w self item = (self', Return result)
    /\ length (execution_log self') = S (length (execution_log self)).
Proof.
  intros (action & -> & Hh). cbn [executor_execute].
  destruct (execute_log w self action) as (entries & Hlog & Hst).
  unfold outcome_of in Hst. revert Hlog. unfold execute.
  destruct (table_get executors (get action "type") _execute_unknown)
    as [h | e] eqn:E.
  - destruct (h w self action) as [self1 [r | e]]; cbn [fst snd] in *;
      intros Hlog; do 2 eexists; (split; [ reflexivity | ]);
      rewrite Hlog, length_app;
      apply (f_equal length) in Hst; rewrite length_map in Hst;
      rewrite Hst; cbn [length]; lia.
  - exfalso. destruct (get action "type"); cbn in E, Hh; discriminate.
Qed.

(** A call on any other item raises and leaves the executor as it was. *)
Lemma executor_execute_undispatchable (w : World) (self : ActionExecutor)
  (item : pyval) :
  ~ dispatchable item ->
  exists e, executor_execute w self item = (self, Raise e).
Proof.
  intros Hn. destruct item as [ | b | z | r | s | l | action ];
    try (eexists; reflexivity).
  cbn [executor_execute].
  destruct (hashable (get action "type")) eqn:Hh.
  - exfalso. apply Hn. exists action. auto.
  - eexists. apply handler_lookup_raises. exact Hh.
Qed.

Lemma execute_each_all (worlds : nat -> World) (items : list pyval) :
  Forall dispatchable items ->
  forall (i : nat) (self : ActionExecutor) (results : list pydict),
  exists self' results',
    execute_each worlds i self items results = (self', Return results')
    /\ length results' = (length results + length items)%nat
    /\ length (execution_log self')
       = (length (execution_log self) + length items)%nat.
Proof.
  induction 1 as [| item items Hitem _ IH]; intros i self results.
  - exists self, results. cbn. repeat split; lia.
  - cbn [execute_each].
    destruct (executor_execute_dispatchable (worlds i) self item Hitem)
      as (self1 & result & -> & Hlog).
    destruct (IH (S i) self1 (list_append results result))
      as (self' & results' & -> & Hres & Hlog').
    exists self', results'. split; [ reflexivity | ].
    unfold list_append in Hres. rewrite length_app in Hres.
    cbn [length] in *. split; lia.
Qed.

Lemma execute_each_stops (worlds : nat -> World) (done : list pyval)
  (bad : pyval) (rest : list pyval) :
  Forall dispatchable done ->
  ~ dispatchable bad ->
  forall (i : nat) (self : ActionExecutor) (results : list pydict),
  exists self' e,
    execute_each worlds i self (done ++ bad :: rest) results
    = (self', Raise e)
    /\ length (execution_log self')
       = (length (execution_log self) + length done)%nat.
Proof.
  intros Hdone Hbad. induction Hdone as [| item done Hitem _ IH];
    intros i self results.
  - cbn [app execute_each].
    destruct (executor_execute_undispatchable (worlds i) self bad Hbad)
      as [e ->].
    exists self, e. cbn. split; [ reflexivity | lia ].
  - cbn [app execute_each].
    destruct (executor_execute_dispatchable (worlds i) self item Hitem)
      as (self1 & result & -> & Hlog).
    destruct (IH (S i) self1 (list_append results result))
      as (self' & e & -> & Hlog').
    exists self', e. split; [ reflexivity | ]. cbn [length]. lia.
Qed.

(** X21. [_execute_actions] on a plan that is a list of actions, at least
    one, each a dict with a hashable type: the answer is [completed], counts
    every action, and the log has one more entry per action. *)
Theorem execute_actions_completed (worlds : nat -> World)
  (self : ActionExecutor) (items : list pyval) :
  Forall dispatchable items ->
  items <> [] ->
  let after := _execute_actions_response worlds self (Return (PList items)) in
  get after.2 "status" = PStr "completed"
  /\ get after.2 "actions_executed" = PInt (Z.of_nat (length items))
  /\ length (execution_log after.1)
     = (length (execution_log self) + length items)%nat.
Proof.
  intros Hall Hne. unfold _execute_actions_response.
  destruct items as [| item items]; [ contradiction | ].
  cbn [truthy negb py_iter].
  destruct (execute_each_all worlds (item :: items) Hall 0%nat self [])
    as (self' & results & -> & Hres & Hlog).
  cbn [fst snd]. rewrite Hres. repeat split. exact Hlog.
Qed.

Lemma execute_actions_completed_witness :
  let after :=
    _execute_actions_response
      (fun i => {| handler_clock := "t1"; log_clock := "t2";
                   first_draw := 1000 + Z.of_nat i; second_draw := 2000 |})
      __init__
      (Return (PList [PDict [("type", PStr "notify")];
                      PDict [("type", PStr "deploy")]])) in
  get after.2 "status" = PStr "completed"
  /\ get after.2 "actions_executed" = PInt (Z.of_nat 2)
  /\ length (execution_log after.1) = (length (execution_log __init__) + 2)%nat.
Proof.
  apply (execute_actions_completed
           (fun i => {| handler_clock := "t1"; log_clock := "t2";
                        first_draw := 1000 + Z.of_nat i; second_draw := 2000 |})
           __init__
           [PDict [("type", PStr "notify")]; PDict [("type", PStr "deploy")]]).
  - repeat constructor; eexists; split; reflexivity.
  - discriminate.
Defined.

(** X22. [_execute_actions] is not all or nothing: when the plan is a list
    whose first item that cannot be dispatched (not a dict, or a dict whose
    type is a list or a dict) comes after some that can, the answer is
    [error], the items after it are not run, and the ones before it have
    been run and stay in the log. *)
Theorem execute_actions_partial (worlds : nat -> World)
  (self : ActionExecutor) (done : list pyval) (bad : pyval)
  (rest : list pyval) :
  Forall dispatchable done ->
  ~ dispatchable bad ->
  let after :=
    _execute_actions_response worlds self
      (Return (PList (done ++ bad :: rest))) in
  get after.2 "status" = PStr "error"
  /\ length (execution_log after.1)
     = (length (execution_log self) + length done)%nat.
Proof.
  intros Hdone Hbad. unfold _execute_actions_response.
  assert (truthy (PList (done ++ bad :: rest)) = true) as ->
      by (destruct done; reflexivity).
  cbn [negb py_iter].
  destruct (execute_each_stops worlds done bad rest Hdone Hbad 0%nat self [])
    as (self' & e & -> & Hlog).
  cbn [fst snd]. split; [ reflexivity | exact Hlog ].
Qed.

Lemma execute_actions_partial_witness :
  let after :=
    _execute_actions_response
      (fun i => {| handler_clock := "t1"; log_clock := "t2";
                   first_draw := 1000 + Z.of_nat i; second_draw := 2000 |})
      __init__
      (Return (PList ([PDict [("type", PStr "create_task");
                              ("title", PStr "Fix login")]]
                      ++ PStr "notify" :: [PDict [("type", PStr "notify")]]))) in
  get after.2 "status" = PStr "error"
  /\ length (execution_log after.1) = (length (execution_log __init__) + 1)%nat.
Proof.
  apply (execute_actions_partial
           (fun i => {| handler_clock := "t1"; log_clock := "t2";
                        first_draw := 1000 + Z.of_nat i; second_draw := 2000 |})
           __init__
           [PDict [("type", PStr "create_task"); ("title", PStr "Fix login")]]
           (PStr "notify") [PDict [("type", PStr "notify")]]).
  - repeat constructor. eexists; split; reflexivity.
  - intros (action & H & _). discriminate H.
Defined.

(** Every dict [_plan_action_dicts] returns can be dispatched. *)
Lemma planned_dicts_dispatchable (event_type : string) (data : loaded)
  (priority : Z) (event_count : option Z) (dicts : list pydict) :
  _plan_action_dicts event_type data priority event_count = Return dicts ->
  Forall dispatchable (PDict <$> dicts).
Proof.
  unfold _plan_action_dicts.
  generalize (list_to_map
                [("event_count",
                   match event_count with
                   | Some n => if n =? 0 then 1 else n
                   | None => 1
                   end);
                 ("priority", priority)] : gmap string Z).
  generalize (match data with Return v => v | Raise _ => PDict [] end).
  intros data_dict context.
  destruct (planner_plan event_type data_dict priority context)
    as [acts | e] eqn:Hplan; cbn [mbind pyresult_bind]; [ | discriminate ].
  intros [= <-]. rewrite Forall_fmap, Forall_map. apply Forall_forall.
  intros a Ha. cbn. exists (action_dict a). split; [ reflexivity | ].
  unfold planner_plan in Hplan.
  destruct data_dict as [ | b | z | r | s | l | d ];
    try (destruct (action_rules !! event_type) as [rules |];
         [ destruct (priority <? priority_threshold rules);
           [ injection Hplan as <-; apply elem_of_nil in Ha; contradiction
           | discriminate Hplan ]
         | injection Hplan as <-; apply list_elem_of_singleton in Ha;
           subst a; reflexivity ]).
  destruct (planned_action_dispatchable event_type d priority context acts a Hplan Ha)
    as [-> _].
  reflexivity.
Qed.

(** X23. Planning then executing, in agent_simple.py: the dicts
    [_plan_actions] serialises, taken as the parsed plan, are answered
    [no_action] with the executor untouched when there are none, and
    otherwise [completed], with every action counted and logged; never
    [error]. *)
Theorem plan_then_execute (worlds : nat -> World) (self : ActionExecutor)
  (event_type : string) (data : loaded) (priority : Z)
  (event_count : option Z) (dicts : list pydict) :
  _plan_action_dicts event_type data priority event_count = Return dicts ->
  let after :=
    _execute_actions_response worlds self (Return (PList (PDict <$> dicts))) in
  (dicts = [] -> get after.2 "status" = PStr "no_action" /\ after.1 = self)
  /\ (dicts <> [] ->
      get after.2 "status" = PStr "completed"
      /\ get after.2 "actions_executed" = PInt (Z.of_nat (length dicts))
      /\ length (execution_log after.1)
         = (length (execution_log self) + length dicts)%nat).
Proof.
  intros Hplan. apply planned_dicts_dispatchable in Hplan. split.
  - intros ->. split; reflexivity.
  - intros Hne. unfold _execute_actions_response.
    rewrite <- (length_fmap PDict dicts).
    assert (PDict <$> dicts <> []) as Hitems
        by (destruct dicts; [ contradiction | discriminate ]).
    revert Hplan Hitems. generalize (PDict <$> dicts). clear.
    intros items Hall Hitems.
    destruct items as [| item items]; [ contradiction | ].
    cbn [truthy negb py_iter].
    destruct (execute_each_all worlds (item :: items) Hall 0%nat self [])
      as (self' & results & -> & Hres & Hlog).
    cbn [fst snd]. rewrite Hres. repeat split. exact Hlog.
Qed.

Lemma plan_then_execute_witness :
  let after :=
    _execute_actions_response
      (fun _ => {| handler_clock := "t1"; log_clock := "t2";
                   first_draw := 4711; second_draw := 1234 |})
      __init__
      (Return (PList (PDict <$> map action_dict (_default_plan "commit" [])))) in
  (map action_dict (_default_plan "commit" []) = [] ->
   get after.2 "status" = PStr "no_action" /\ after.1 = __init__)
  /\ (map action_dict (_default_plan "commit" []) <> [] ->
      get after.2 "status" = PStr "completed"
      /\ get after.2 "actions_executed"
         = PInt (Z.of_nat (length (map action_dict (_default_plan "commit" []))))
      /\ length (execution_log after.1)
         = (length (execution_log __init__)
            + length (map action_dict (_default_plan "commit" [])))%nat).
Proof.
  apply (plan_then_execute
           (fun _ => {| handler_clock := "t1"; log_clock := "t2";
                        first_draw := 4711; second_draw := 1234 |})
           __init__ "commit"
           (Raise (JSONDecodeError "Expecting value: line 1 column 1 (char 0)"))
           5 None).
  reflexivity.
Defined.

End SimplePipelineProperties.

(** ** Planning and executing, in agent.py *)

Section AgentPipelineProperties.

Import Executor ExecutionValidator AgentPipeline.

(** The planner of agent.py plans at most three actions; each passes the
    validator and its handler, the prints set aside, returns: its task
    labels are fixed and it copies no list from the payload. *)
Lemma agent_planned_actions_quiet (event_type : string) (data : loaded)
  (priority : Z) (event_count : option Z) (acts : list pydict)
  (a : pydict) (w : World) (self : ActionExecutor) :
  _plan_action_list event_type data priority event_count = Return acts ->
  a ∈ acts ->
  (length acts <= 3)%nat
  /\ validate a = true
  /\ exists result,
       (execute w self a).2 = Return result
       /\ lookup_key "status" result = Some (PStr "success").
Proof.
  unfold _plan_action_list. intros H Ha.
  destruct data as [v | e]; cbn [mbind pyresult_bind] in H;
    [ | discriminate H ].
  destruct v as [ | b | z | r | s | l | d ];
    cbn [py_get mbind pyresult_bind] in H;
    repeat
      match type of H with
      | context [if ?c then _ else _] => destruct c
      end;
    try discriminate H; injection H as <-; unfold list_append in *;
    cbn [app] in *;
    repeat (apply elem_of_cons in Ha as [-> | Ha];
            [ split; [ cbn [length]; lia | ];
              split; [ reflexivity | eexists; split; reflexivity ] | ]);
    apply elem_of_nil in Ha; contradiction.
Qed.

(** X24. The planner of agent.py plans at most three actions; each passes
    the validator and, executed, never raises: it is answered [success], or
    else [failed] with the text of an error the standard output raises on a
    line; so it is answered [success] on a standard output that takes every
    line. *)
Theorem agent_planned_actions_succeed (event_type : string) (data : loaded)
  (priority : Z) (event_count : option Z) (acts : list pydict)
  (a : pydict) (out : ExecutorStdout.stdout) (w : World)
  (self : ActionExecutor) :
  _plan_action_list event_type data priority event_count = Return acts ->
  a ∈ acts ->
  (length acts <= 3)%nat
  /\ validate a = true
  /\ exists result,
       (ExecutorStdout.execute out w self a).2 = Return result
       /\ (lookup_key "status" result = Some (PStr "success")
           \/ refused out result).
Proof.
  intros Hp Ha.
  destruct (agent_planned_actions_quiet _ _ _ _ _ _ w self Hp Ha)
    as (Hlen & Hvalid & result & Hres & Hok).
  split; [ exact Hlen | ]. split; [ exact Hvalid | ].
  destruct (execute_prints out w self a)
    as (_ & _ & [Heq | (line & e & Hout & Hfailed & _)]).
  - exists result. rewrite Heq. split; [ exact Hres | left; exact Hok ].
  - exists (failed_with e). split; [ exact Hfailed | ].
    right. exists line, e. split; [ exact Hout | reflexivity ].
Qed.

Lemma agent_planned_actions_succeed_witness :
  (length
     [[("type", PStr "monitor"); ("target", PStr "user-service");
       ("duration", PStr "30m")];
      [("type", PStr "create_task");
       ("title", PStr "Post-deployment verification");
       ("priority", PStr "high");
       ("labels", PList [PStr "deployment"; PStr "automated"])]]
   <= 3)%nat
  /\ validate
       [("type", PStr "monitor"); ("target", PStr "user-service");
        ("duration", PStr "30m")]
     = true
  /\ exists result,
       (ExecutorStdout.execute (fun _ => None)
          {| handler_clock := "t1"; log_clock := "t2";
             first_draw := 4711; second_draw := 1234 |}
          __init__
          [("type", PStr "monitor"); ("target", PStr "user-service");
           ("duration", PStr "30m")]).2
       = Return result
       /\ (lookup_key "status" result = Some (PStr "success")
           \/ refused (fun _ => None) result).
Proof.
  apply (agent_planned_actions_succeed "deployment"
           (Return (PDict [("service", PStr "user-service")])) 7 (Some 1)).
  - reflexivity.
  - found.
Defined.



End AgentPipelineProperties.

(** ** From the scorer to the planner *)

Section ScoredPlans.

Import Planner.

(** The score is at least the base value of the type. *)
Lemma score_at_least_base (event_type : string) (data : loaded) :
  base_priority_of event_type
  <= AgentSimple._calculate_priority event_type data.
Proof.
  unfold AgentSimple._calculate_priority. rewrite priority_map_lookup.
  pose proof (base_priority_bounds event_type).
  destruct (existsb _ _); lia.
Qed.

(** X26. The threshold of the rule table never filters an event that comes
    with the score of [_calculate_priority]: the base value of each of the
    five types is at or above its threshold, so the plan of a scored event,
    when it is returned, is never empty. *)
Theorem scored_plan_not_empty (event_type : string) (data : loaded)
  (event_data : pydict) (context : gmap string Z) (acts : list Action) :
  plan event_type event_data
    (AgentSimple._calculate_priority event_type data) context
  = Return acts ->
  acts <> []
  /\ forall rules,
       action_rules !! event_type = Some rules ->
       priority_threshold rules <= base_priority_of event_type.
Proof.
  intros H.
  assert (forall rules,
            action_rules !! event_type = Some rules ->
            priority_threshold rules <= base_priority_of event_type) as Hbase.
  { intros rules Hr.
    apply action_rules_cases in Hr
      as [[-> ->] | [[-> ->] | [[-> ->] | [[-> ->] | [-> ->]]]]];
      vm_compute; discriminate. }
  split; [ | exact Hbase ].
  pose proof (score_at_least_base event_type data) as Hscore.
  destruct (plan_returned _ _ _ _ _ H)
    as [[_ Hk]
       | [(rules & Hsome & Hlt & _)
         | (rules & fixable & Hsome & _ & _ & Hk)]].
  - intros ->. discriminate Hk.
  - specialize (Hbase rules Hsome). lia.
  - intros ->. revert Hk. unfold kinds_by_rule.
    apply action_rules_cases in Hsome
      as [[-> ->] | [[-> ->] | [[-> ->] | [[-> ->] | [-> ->]]]]];
      discriminate.
Qed.

Lemma scored_plan_not_empty_witness :
  [_plan_scheduling "code_review" [("pr_id", PStr "PR-456")]] <> []
  /\ forall rules,
       action_rules !! "code_review" = Some rules ->
       priority_threshold rules <= base_priority_of "code_review".
Proof.
  apply (scored_plan_not_empty "code_review"
           (Return (PDict [("pr_id", PStr "PR-456")]))
           [("pr_id", PStr "PR-456")] {[ "event_count" := 1 ]}).
  vm_compute. reflexivity.
Defined.

End ScoredPlans.
